(** * nb-workbench: the notebook conversion engine of [wb.py]

    A shallow embedding of [src/wb.py]: the property path accessor
    ([get_property_by_path], [set_property_value]), the scalar literal codec
    ([value_str], [parse_value]), the two notebook formats
    ([SynapseNotebookFormat], [ScratchpadNotebookFormat]) and the two
    orchestrating functions ([push_notebook], [pull_notebook]).

    Python values are an inductive type, Python exceptions are the error
    side of a result type, the file system is a map from absolute paths to
    file contents that every I/O function threads through.  Characters are
    [ascii] and stand for the code points 0 to 127; text outside that
    range is out of the model. *)

From Stdlib Require Import ZArith List Bool Ascii String Lia.
From Stdlib Require Import Numbers.DecimalString Numbers.DecimalPos.
Import ListNotations.

Local Open Scope list_scope.
Local Open Scope string_scope.

(** ** Characters the program names *)

Definition dquote : ascii := "034"%char.
Definition backslash : ascii := "092"%char.
Definition newline : ascii := "010"%char.
Definition tab : ascii := "009"%char.
Definition cr : ascii := "013"%char.
Definition space : ascii := " "%char.

Definition str1 (c : ascii) : string := String c EmptyString.

(** ** The methods of Python's [str] that the program calls *)

Module PyStr.

(** [c in chars], for the character sets given to [strip]/[rstrip]. *)
Fixpoint in_chars (chars : string) (c : ascii) : bool :=
  match chars with
  | EmptyString => false
  | String d rest => Ascii.eqb c d || in_chars rest c
  end.

(** [str.isspace] on one character of the ASCII range: tab, LF, VT, FF, CR,
    the four separators 0x1c-0x1f and the space. *)
Definition isspace (c : ascii) : bool :=
  let n := nat_of_ascii c in
  ((9 <=? n)%nat && (n <=? 13)%nat) || ((28 <=? n)%nat && (n <=? 32)%nat).

Definition startswith (s p : string) : bool := String.prefix p s.

Fixpoint endswith_char (s : string) (c : ascii) : bool :=
  match s with
  | EmptyString => false
  | String d EmptyString => Ascii.eqb d c
  | String _ rest => endswith_char rest c
  end.

(** [s.endswith(p)] for the one-character [p] of every call site. *)
Definition endswith (s p : string) : bool :=
  match p with
  | EmptyString => true
  | String c EmptyString => endswith_char s c
  | _ => String.prefix (string_of_list_ascii (rev (list_ascii_of_string p)))
                       (string_of_list_ascii (rev (list_ascii_of_string s)))
  end.

Fixpoint lstrip (p : ascii -> bool) (s : string) : string :=
  match s with
  | EmptyString => EmptyString
  | String c rest => if p c then lstrip p rest else s
  end.

Fixpoint rstrip (p : ascii -> bool) (s : string) : string :=
  match s with
  | EmptyString => EmptyString
  | String c rest =>
      match rstrip p rest with
      | EmptyString => if p c then EmptyString else str1 c
      | kept => String c kept
      end
  end.

Definition strip (p : ascii -> bool) (s : string) : string :=
  rstrip p (lstrip p s).

(** [s.replace(old, new)] for a non-empty [old], as at every call site:
    occurrences are found left to right and do not overlap.  [skip] counts
    the characters of a matched occurrence still to be dropped. *)
Fixpoint replace_from (old new : string) (skip : nat) (s : string) : string :=
  match s with
  | EmptyString => EmptyString
  | String c rest =>
      match skip with
      | S k => replace_from old new k rest
      | O =>
          if String.prefix old s
          then new ++ replace_from old new (String.length old - 1) rest
          else String c (replace_from old new 0 rest)
      end
  end.

Definition replace (s old new : string) : string := replace_from old new 0 s.

(** [s.split(sep)] for a one-character separator: never the empty list. *)
Fixpoint split (sep : ascii) (s : string) : list string :=
  match s with
  | EmptyString => [EmptyString]
  | String c rest =>
      if Ascii.eqb c sep then EmptyString :: split sep rest
      else match split sep rest with
           | piece :: more => String c piece :: more
           | [] => [str1 c]
           end
  end.

Definition join (sep : string) (pieces : list string) : string :=
  String.concat sep pieces.

(** Slice bounds as Python normalises them: a negative index counts from
    the end, and the result is clamped to [0, len]. *)
Definition norm_index (len i : Z) : Z :=
  let j := if (i <? 0)%Z then (i + len)%Z else i in
  Z.max 0 (Z.min len j).

(** [s[start:stop]]; [None] is an omitted bound. *)
Definition slice (s : string) (start stop : option Z) : string :=
  let len := Z.of_nat (String.length s) in
  let a := match start with Some i => norm_index len i | None => 0%Z end in
  let b := match stop with Some i => norm_index len i | None => len end in
  String.substring (Z.to_nat a) (Z.to_nat (b - a)) s.

(** [s.find(sub, start)]: the first index at or after [start], or -1. *)
Definition find (s sub : string) (start : Z) : Z :=
  let len := Z.of_nat (String.length s) in
  let from := if (start <? 0)%Z then Z.max 0 (start + len) else start in
  match String.index (Z.to_nat from) sub s with
  | Some i => Z.of_nat i
  | None => (-1)%Z
  end.

Definition contains (s sub : string) : bool :=
  (0 <=? find s sub 0)%Z.

Definition lower_char (c : ascii) : ascii :=
  let n := nat_of_ascii c in
  if (65 <=? n)%nat && (n <=? 90)%nat then ascii_of_nat (n + 32) else c.

Fixpoint lower (s : string) : string :=
  match s with
  | EmptyString => EmptyString
  | String c rest => String (lower_char c) (lower rest)
  end.

(** The characters of a string, each as a one-character string: what
    iterating over a [str] yields. *)
Fixpoint chars (s : string) : list string :=
  match s with
  | EmptyString => []
  | String c rest => str1 c :: chars rest
  end.

End PyStr.

(** ** Python values and exceptions *)

(** A float is never computed with: the program moves it between
    [json.load], [float()], [str()] and [json.dump].  It is kept as the text
    [repr] gives for it. *)
Record pyfloat := PyFloat { float_repr : string }.

(** The values the program handles: what [json.load] builds and what
    [parse_value] returns.  A dict is an association list in insertion
    order, as Python iterates and dumps it. *)
#[warnings="-register-all"]
Inductive pyval :=
| VNone
| VBool (b : bool)
| VInt (n : Z)
| VFloat (f : pyfloat)
| VStr (s : string)
| VList (items : list pyval)
| VDict (fields : list (string * pyval)).

Inductive exn :=
| KeyError (key : string)
| TypeError
| AttributeError
| IndexError
| NameError (name : string)
| FileNotFoundError
| JSONDecodeError
| WorkbenchError (msg : string).

Inductive result (A : Type) :=
| Ok (a : A)
| Raise (e : exn).
Arguments Ok {A} a.
Arguments Raise {A} e.

Definition bind {A B : Type} (r : result A) (k : A -> result B) : result B :=
  match r with
  | Ok a => k a
  | Raise e => Raise e
  end.

Notation "x <- r ;; k" := (bind r (fun x => k))
  (at level 61, r at next level, right associativity).

(** Running a fallible function over a list, left to right: the first
    exception ends the loop. *)
Fixpoint for_each {A B : Type} (f : A -> result B) (l : list A) : result (list B) :=
  match l with
  | [] => Ok []
  | a :: rest =>
      b <- f a ;;
      bs <- for_each f rest ;;
      Ok (b :: bs)
  end.

Module Dict.

Definition t := list (string * pyval).

(** [key in d] and [d[key]] in one. *)
Fixpoint get (d : t) (key : string) : option pyval :=
  match d with
  | [] => None
  | (k, v) :: rest => if String.eqb k key then Some v else get rest key
  end.

(** [d[key] = v]: an existing key keeps its position, a new one goes last. *)
Fixpoint set (d : t) (key : string) (v : pyval) : t :=
  match d with
  | [] => [(key, v)]
  | (k, w) :: rest =>
      if String.eqb k key then (k, v) :: rest else (k, w) :: set rest key v
  end.

Definition keys (d : t) : list string := map fst d.

End Dict.

(** ** Builtins *)

Module Py.

(** [obj.get(key, default)]: only a dict has the method. *)
Definition get_default (obj : pyval) (key : string) (default : pyval) : result pyval :=
  match obj with
  | VDict d => Ok (match Dict.get d key with Some v => v | None => default end)
  | _ => Raise AttributeError
  end.

(** [obj.get(key)]. *)
Definition get (obj : pyval) (key : string) : result pyval :=
  get_default obj key VNone.

(** [obj[key]] with a string key. *)
Definition getitem (obj : pyval) (key : string) : result pyval :=
  match obj with
  | VDict d =>
      match Dict.get d key with
      | Some v => Ok v
      | None => Raise (KeyError key)
      end
  | _ => Raise TypeError
  end.

(** [obj[key] = v] with a string key: a list wants an integer index and
    nothing else supports item assignment. *)
Definition setitem (obj : pyval) (key : string) (v : pyval) : result pyval :=
  match obj with
  | VDict d => Ok (VDict (Dict.set d key v))
  | _ => Raise TypeError
  end.

(** What a [for] loop over the value visits. *)
Definition iter (obj : pyval) : result (list pyval) :=
  match obj with
  | VList items => Ok items
  | VStr s => Ok (map VStr (PyStr.chars s))
  | VDict d => Ok (map VStr (Dict.keys d))
  | _ => Raise TypeError
  end.

Definition len (obj : pyval) : result nat :=
  match obj with
  | VList items => Ok (List.length items)
  | VStr s => Ok (String.length s)
  | VDict d => Ok (List.length d)
  | _ => Raise TypeError
  end.

Definition str_of_int (n : Z) : string := NilZero.string_of_int (Z.to_int n).

Definition digit_value (c : ascii) : option Z :=
  let n := nat_of_ascii c in
  if (48 <=? n)%nat && (n <=? 57)%nat then Some (Z.of_nat (n - 48)) else None.

(** Decimal digits, where one underscore may stand between two digits. *)
Fixpoint digits (acc : Z) (s : string) : option Z :=
  match s with
  | EmptyString => None
  | String c rest =>
      match digit_value c with
      | None => None
      | Some d =>
          let acc' := (10 * acc + d)%Z in
          match rest with
          | EmptyString => Some acc'
          | String u after =>
              if Ascii.eqb u "_" then digits acc' after else digits acc' rest
          end
      end
  end.

(** [int(s)] on a string, [None] where it raises [ValueError]: surrounding
    whitespace is dropped, one sign is allowed. *)
Definition int (s : string) : option Z :=
  match PyStr.strip PyStr.isspace s with
  | String "+" body => digits 0 body
  | String "-" body => option_map Z.opp (digits 0 body)
  | body => digits 0 body
  end.

End Py.

(** What the program leaves to the interpreter and its libraries. *)
Record Runtime := {
  (** [os.path.abspath(os.path.join(os.getcwd(), path))] *)
  abspath : string -> string;
  (** [float(s)] on a string; [None] where it raises [ValueError] *)
  float_of_str : string -> option pyfloat;
  (** [json.load] on a file's text; [None] where it raises *)
  json_loads : string -> option pyval;
  (** [json.dump] with tab indentation *)
  json_dumps : pyval -> string;
  (** [str()] of a list or a dict *)
  container_str : pyval -> string
}.

(** The file system: regular files by absolute path, with their text. *)
Definition filesystem := string -> option string.

Definition fs_write (fs : filesystem) (path content : string) : filesystem :=
  fun p => if String.eqb p path then Some content else fs p.

(** Reading in text mode turns [\r\n] and a lone [\r] into [\n]. *)
Definition universal_newlines (text : string) : string :=
  PyStr.replace (PyStr.replace text (String cr (str1 newline)) (str1 newline))
                (str1 cr) (str1 newline).

(** [str(value)], which is also what an f-string puts for [{value}]. *)
Definition py_str (rt : Runtime) (value : pyval) : string :=
  match value with
  | VNone => "None"
  | VBool true => "True"
  | VBool false => "False"
  | VInt n => Py.str_of_int n
  | VFloat f => float_repr f
  | VStr s => s
  | VList _ | VDict _ => container_str rt value
  end.

(** ** The property path accessor and the scalar literal codec *)

Definition to_abs_path (rt : Runtime) (path : string) : string := abspath rt path.

(** The loop of [get_property_by_path]; [None] is its early [return None]. *)
Fixpoint get_walk (value : pyval) (path_parts : list string) : option pyval :=
  match path_parts with
  | [] => Some value
  | part :: rest =>
      match value with
      | VDict d =>
          match Dict.get d part with
          | Some child => get_walk child rest
          | None => None
          end
      | _ => None
      end
  end.

(** [type(value) in [int, float, str]] *)
Definition is_scalar (value : pyval) : bool :=
  match value with
  | VInt _ | VFloat _ | VStr _ => true
  | _ => false
  end.

Definition get_property_by_path (o : pyval) (path : string) : pyval :=
  match get_walk o (PyStr.split "." path) with
  | Some value => if is_scalar value then value else VNone
  | None => VNone
  end.

Definition value_str (rt : Runtime) (value : pyval) : string :=
  match value with
  | VStr s =>
      str1 dquote
      ++ PyStr.replace (PyStr.replace s (str1 backslash) (String backslash (str1 backslash)))
                       (str1 dquote) (String backslash (str1 dquote))
      ++ str1 dquote
  | _ => py_str rt value
  end.

Definition parse_value (rt : Runtime) (value_str : string) : pyval :=
  if PyStr.startswith value_str (str1 dquote) && PyStr.endswith value_str (str1 dquote)
  then VStr (PyStr.replace
               (PyStr.replace (PyStr.strip (PyStr.in_chars (str1 dquote)) value_str)
                              (str1 dquote) (String backslash (str1 dquote)))
               (String backslash (str1 backslash)) (str1 backslash))
  else match Py.int value_str with
       | Some n => VInt n
       | None =>
           match float_of_str rt value_str with
           | Some f => VFloat f
           | None => VNone
           end
       end.

(** The loop and the final assignment of [set_property_value] over the
    split path.  The source mutates the tree in place; here each level
    stores the updated child back under its key. *)
Fixpoint set_walk (dict_sect : pyval) (path_parts : list string) (value : pyval)
  : result pyval :=
  match path_parts with
  | [] => Raise IndexError
  | [last] => Py.setitem dict_sect last value
  | part :: rest =>
      sect <- match dict_sect with
              | VDict _ => Ok dict_sect
              | _ => Py.setitem dict_sect part (VDict [])
              end ;;
      child <- Py.getitem sect part ;;
      child' <- set_walk child rest value ;;
      Py.setitem sect part child'
  end.

Definition set_property_value (obj : pyval) (path : string) (value : pyval)
  : result pyval :=
  set_walk obj (PyStr.split "." path) value.

(** ** The notebook data model *)

Record NotebookCellData := {
  cell_type : pyval;
  contents : string;
  attributes : pyval
}.

Record NotebookData := {
  name : pyval;
  properties : Dict.t;
  cells : list NotebookCellData
}.

(** ** The document format *)

Module SynapseNotebookFormat.

Definition meta_properties : list (string * string) :=
  [ ("folder", "folder.name");
    ("nbformat", "nbformat");
    ("nbformat_minor", "nbformat_minor");
    ("language", "metadata.language_info.name") ].

Fixpoint meta_path (prop_name : string) (table : list (string * string))
  : option string :=
  match table with
  | [] => None
  | (k, path) :: rest =>
      if String.eqb k prop_name then Some path else meta_path prop_name rest
  end.

(** One source line with its trailing newlines stripped and one newline put back. *)
Definition source_line (line : pyval) : result string :=
  match line with
  | VStr s => Ok (PyStr.rstrip (PyStr.in_chars (str1 newline)) s ++ str1 newline)
  | _ => Raise AttributeError
  end.

(** The normalised lines of [cell_data['source']], concatenated. *)
Definition cell_content (source : pyval) : result string :=
  lines <- Py.iter source ;;
  pieces <- for_each source_line lines ;;
  Ok (PyStr.join EmptyString pieces).

(** The body of the loop over the cells in [read_file]. *)
Definition read_cell (cell_data : pyval) : result NotebookCellData :=
  metadata <- Py.get_default cell_data "metadata" (VDict []) ;;
  tags <- Py.get_default metadata "tags" (VList []) ;;
  ctype <- Py.get cell_data "cell_type" ;;
  source <- Py.getitem cell_data "source" ;;
  content <- cell_content source ;;
  Ok {| cell_type := ctype; contents := content; attributes := tags |}.

(** [read_file] from the loaded document on. *)
Definition read_data (file_data : pyval) : result NotebookData :=
  nm <- Py.get file_data "name" ;;
  properties_obj <- Py.get file_data "properties" ;;
  let props :=
    fold_left (fun acc '(prop_name, prop_path) =>
                 Dict.set acc prop_name (get_property_by_path properties_obj prop_path))
              meta_properties [] in
  cells_obj <- Py.get properties_obj "cells" ;;
  entries <- Py.iter cells_obj ;;
  cs <- for_each read_cell entries ;;
  Ok {| name := nm; properties := props; cells := cs |}.

Definition read_file (rt : Runtime) (fs : filesystem) (src_path : string)
  : result NotebookData :=
  match fs src_path with
  | None => Raise FileNotFoundError
  | Some text =>
      match json_loads rt text with
      | None => Raise JSONDecodeError
      | Some file_data => read_data file_data
      end
  end.

(** The body of the loop over [nb_data.cells] in [write_file]. *)
Definition write_cell (cell : NotebookCellData) : result pyval :=
  let cell_content_lines :=
    map (fun line => VStr (line ++ str1 newline))
        (PyStr.split newline
           (PyStr.rstrip (PyStr.in_chars (String space (String newline (String tab (str1 cr)))))
                         (contents cell))) in
  let cell_data :=
    [ ("cell_type", cell_type cell); ("source", VList cell_content_lines) ] in
  n <- Py.len (attributes cell) ;;
  let cell_data :=
    if (0 <? n)%nat then Dict.set cell_data "tags" (attributes cell) else cell_data in
  Ok (VDict (Dict.set cell_data "execution_count" (VInt 0))).

(** The loop over [nb_data.properties.items()] in [write_file]. *)
Fixpoint write_properties (props : pyval) (items : list (string * pyval))
  : result pyval :=
  match items with
  | [] => Ok props
  | (prop_name, prop_value) :: rest =>
      match meta_path prop_name meta_properties with
      | Some prop_path =>
          props' <- set_property_value props prop_path prop_value ;;
          write_properties props' rest
      | None => write_properties props rest
      end
  end.

(** [write_file] between loading the destination and dumping it. *)
Definition write_data (file_data : pyval) (nb_data : NotebookData) : result pyval :=
  file_data <- set_property_value file_data "name" (name nb_data) ;;
  props <- Py.get_default file_data "properties" (VDict []) ;;
  props <- write_properties props (properties nb_data) ;;
  cs <- for_each write_cell (cells nb_data) ;;
  props <- set_property_value props "cells" (VList cs) ;;
  set_property_value file_data "properties" props.

(** [write_file].  Without a destination file the source calls
    [_get_detault_notebook_data()], a name bound nowhere: the method the
    class defines is [_get_default_notebook_data], and it is not a global. *)
Definition write_file (rt : Runtime) (fs : filesystem) (dest_path : string)
  (nb_data : NotebookData) : result unit * filesystem :=
  match fs dest_path with
  | Some text =>
      match json_loads rt text with
      | None => (Raise JSONDecodeError, fs)
      | Some file_data =>
          match write_data file_data nb_data with
          | Ok file_data' => (Ok tt, fs_write fs dest_path (json_dumps rt file_data'))
          | Raise e => (Raise e, fs)
          end
      end
  | None => (Raise (NameError "_get_detault_notebook_data"), fs)
  end.

End SynapseNotebookFormat.

(** ** The text format *)

Module ScratchpadNotebookFormat.

(** The local variables of [read_file].  [current_cell] refers to an
    element of [cells]: a reference to the cell object that was appended,
    kept here as its index, so that [current_cell.contents += ...] is seen
    through the list. *)
Record reader := {
  r_name : pyval;
  r_properties : Dict.t;
  r_cells : list NotebookCellData;
  current_cell : option nat
}.

Definition start : reader :=
  {| r_name := VStr EmptyString; r_properties := []; r_cells := [];
     current_cell := None |}.

Fixpoint update_at {A : Type} (i : nat) (f : A -> A) (l : list A) : list A :=
  match l, i with
  | [], _ => []
  | a :: rest, O => f a :: rest
  | a :: rest, S j => a :: update_at j f rest
  end.

(** [line[1:line.find(' ')].lower()] *)
Definition directive_of (line : string) : string :=
  PyStr.lower (PyStr.slice line (Some 1%Z) (Some (PyStr.find line " " 0%Z))).

(** The tag list of a [@cell] line:
    [[t.strip() for t in tag_part[1:-1].split(',') if t.strip()]]. *)
Definition cell_tags (cell_def : string) : list string :=
  if PyStr.contains cell_def "["
  then
    let tag_part :=
      PyStr.slice cell_def (Some (PyStr.find cell_def "[" 0%Z))
                           (Some (PyStr.find cell_def "]" 0%Z + 1)%Z) in
    filter (fun t => negb (String.eqb t EmptyString))
           (map (PyStr.strip PyStr.isspace)
                (PyStr.split "," (PyStr.slice tag_part (Some 1%Z) (Some (-1)%Z))))
  else [].

(** [if directive == 'cell': ...; continue] *)
Definition read_cell_line (st : reader) (line : string) : reader :=
  let cell_def := PyStr.strip PyStr.isspace (PyStr.slice line (Some 6%Z) None) in
  let ctype := hd EmptyString (PyStr.split " " cell_def) in
  let tags := cell_tags cell_def in
  let cell := {| cell_type := VStr ctype; contents := EmptyString;
                 attributes := VList (map VStr tags) |} in
  {| r_name := r_name st; r_properties := r_properties st;
     r_cells := (r_cells st ++ [cell])%list;
     current_cell := Some (List.length (r_cells st)) |}.

(** [if directive == 'meta': ...; continue] *)
Definition read_meta_line (rt : Runtime) (st : reader) (line : string) : reader :=
  let sp1 := PyStr.find line " " 0%Z in
  let sp2 := PyStr.find line " " (sp1 + 1)%Z in
  let prop_name := PyStr.slice line (Some (sp1 + 1)%Z) (Some sp2) in
  let prop_value := PyStr.slice line (Some (sp2 + 1)%Z) None in
  let parsed_value := parse_value rt prop_value in
  if String.eqb prop_name "name"
  then {| r_name := parsed_value; r_properties := r_properties st;
          r_cells := r_cells st; current_cell := current_cell st |}
  else {| r_name := r_name st;
          r_properties := Dict.set (r_properties st) prop_name parsed_value;
          r_cells := r_cells st; current_cell := current_cell st |}.

(** [if current_cell is not None: current_cell.contents += line + '\n'] *)
Definition append_line (st : reader) (line : string) : reader :=
  match current_cell st with
  | None => st
  | Some i =>
      {| r_name := r_name st; r_properties := r_properties st;
         r_cells :=
           update_at i
             (fun c => {| cell_type := cell_type c;
                          contents := contents c ++ line ++ str1 newline;
                          attributes := attributes c |})
             (r_cells st);
         current_cell := current_cell st |}
  end.

(** One turn of the loop over the lines. *)
Definition read_line (rt : Runtime) (st : reader) (line : string) : reader :=
  if PyStr.startswith line "@"
  then
    let directive := directive_of line in
    if String.eqb directive "cell" then read_cell_line st line
    else if String.eqb directive "meta" then read_meta_line rt st line
    else append_line st line
  else append_line st line.

Definition read_lines (rt : Runtime) (lines : list string) : NotebookData :=
  let st := fold_left (read_line rt) lines start in
  {| name := r_name st; properties := r_properties st; cells := r_cells st |}.

(** [read_file] from the file's text on. *)
Definition read_text (rt : Runtime) (file_content : string) : NotebookData :=
  read_lines rt (PyStr.split newline file_content).

Definition read_file (rt : Runtime) (fs : filesystem) (src_path : string)
  : result NotebookData :=
  match fs src_path with
  | None => Raise FileNotFoundError
  | Some text => Ok (read_text rt (universal_newlines text))
  end.

(** An element handed to [','.join] has to be a [str]. *)
Definition join_item (item : pyval) : result string :=
  match item with
  | VStr s => Ok s
  | _ => Raise TypeError
  end.

(** The text of one cell in [write_file]. *)
Definition write_cell (rt : Runtime) (cell : NotebookCellData) : result string :=
  n <- Py.len (attributes cell) ;;
  attribute_str <-
    (if (0 <? n)%nat
     then items <- Py.iter (attributes cell) ;;
          tags <- for_each join_item items ;;
          Ok (" [" ++ PyStr.join "," tags ++ "]")
     else Ok EmptyString) ;;
  Ok ("@cell " ++ py_str rt (cell_type cell) ++ attribute_str ++ str1 newline
      ++ contents cell ++ str1 newline).

Definition write_meta (rt : Runtime) (item : string * pyval) : string :=
  "@meta " ++ fst item ++ " " ++ value_str rt (snd item) ++ str1 newline.

(** [new_file_text] as [write_file] builds it. *)
Definition write_text (rt : Runtime) (nb_data : NotebookData) : result string :=
  let header := "@meta name " ++ value_str rt (name nb_data) ++ str1 newline in
  let metas := String.concat EmptyString (map (write_meta rt) (properties nb_data)) in
  cell_texts <- for_each (write_cell rt) (cells nb_data) ;;
  Ok (header ++ metas ++ String.concat EmptyString cell_texts).

Definition write_file (rt : Runtime) (fs : filesystem) (dest_path : string)
  (nb_data : NotebookData) : result unit * filesystem :=
  match write_text rt nb_data with
  | Ok new_file_text => (Ok tt, fs_write fs dest_path new_file_text)
  | Raise e => (Raise e, fs)
  end.

End ScratchpadNotebookFormat.

(** ** The orchestrator *)

Definition file_exists (fs : filesystem) (path : string) : bool :=
  match fs path with
  | Some _ => true
  | None => false
  end.

Definition not_found (path : string) : exn :=
  WorkbenchError ("File not found '" ++ path ++ "'").

Definition push_notebook (rt : Runtime) (fs : filesystem) (location src : string)
  : result unit * filesystem :=
  let location := to_abs_path rt location in
  let src := to_abs_path rt src in
  if negb (file_exists fs location)
  then (Raise (not_found location), fs)
  else
    match ScratchpadNotebookFormat.read_file rt fs location with
    | Raise e => (Raise e, fs)
    | Ok nb_data => SynapseNotebookFormat.write_file rt fs src nb_data
    end.

Definition pull_notebook (rt : Runtime) (fs : filesystem) (location src : string)
  : result unit * filesystem :=
  let src := to_abs_path rt src in
  if negb (file_exists fs src)
  then (Raise (not_found src), fs)
  else
    let location := to_abs_path rt location in
    match SynapseNotebookFormat.read_file rt fs src with
    | Raise e => (Raise e, fs)
    | Ok nb_data => ScratchpadNotebookFormat.write_file rt fs location nb_data
    end.

(** ** The command line *)





(** ** Vocabulary of the statements *)

(** The lines of a text file that open a cell, and those that set a
    property. *)
Definition is_cell_line (line : string) : bool :=
  PyStr.startswith line "@"
  && String.eqb (ScratchpadNotebookFormat.directive_of line) "cell".

Definition is_meta_line (line : string) : bool :=
  PyStr.startswith line "@"
  && String.eqb (ScratchpadNotebookFormat.directive_of line) "meta".

(** The cell that a cell line opens. *)
Definition opened_cell (line : string) : NotebookCellData :=
  let cell_def := PyStr.strip PyStr.isspace (PyStr.slice line (Some 6%Z) None) in
  {| cell_type := VStr (hd EmptyString (PyStr.split " " cell_def));
     contents := EmptyString;
     attributes := VList (map VStr (ScratchpadNotebookFormat.cell_tags cell_def)) |}.



(** A cell as the text reader makes them: the type is a string and the
    attributes are a list of strings. *)
Definition text_cell (cell : NotebookCellData) : Prop :=
  exists ctype tags,
    cell_type cell = VStr ctype /\ attributes cell = VList (map VStr tags).

Definition is_workbench_error (e : exn) : bool :=
  match e with
  | WorkbenchError _ => true
  | _ => false
  end.

(** The computation raises none of the program's own errors: whatever it
    raises is an exception of the interpreter. *)
Definition builtin_only {A : Type} (r : result A) : Prop :=
  forall e, r = Raise e -> is_workbench_error e = false.

(** Whatever the computation raises is one of the exceptions [allowed]. *)
Definition raises_only {A : Type} (allowed : exn -> Prop) (r : result A) : Prop :=
  forall e, r = Raise e -> allowed e.

(** In [read_file] of the text format, [current_cell] is the cell that was
    appended last. *)
Definition tracks_last (st : ScratchpadNotebookFormat.reader) : Prop :=
  match ScratchpadNotebookFormat.current_cell st with
  | None => ScratchpadNotebookFormat.r_cells st = []
  | Some i => S i = List.length (ScratchpadNotebookFormat.r_cells st)
  end.

(** The tags the document-format reader finds in a document, cell by cell. *)
Definition tags_read (doc : pyval) : result (list pyval) :=
  nb <- SynapseNotebookFormat.read_data doc ;;
  Ok (map attributes (cells nb)).

(** [k] newline characters. *)
Fixpoint newlines (k : nat) : string :=
  match k with
  | O => EmptyString
  | S j => String newline (newlines j)
  end.





(** What a text round trip makes of the cells: the writer ends the contents
    of each cell with a newline that the reader takes for an empty line,
    and the newline that ends the file gives the last cell one more. *)
Definition add_newlines (k : nat) (cell : NotebookCellData) : NotebookCellData :=
  {| cell_type := cell_type cell;
     contents := contents cell ++ newlines k;
     attributes := attributes cell |}.

Fixpoint after_text_round_trip (cell_list : list NotebookCellData)
  : list NotebookCellData :=
  match cell_list with
  | [] => []
  | [cell] => [add_newlines 2 cell]
  | cell :: rest => add_newlines 1 cell :: after_text_round_trip rest
  end.






(** Paths into a document, as lists of keys. *)
Fixpoint is_prefix (p q : list string) : bool :=
  match p, q with
  | [], _ => true
  | _ :: _, [] => false
  | a :: p', b :: q' => String.eqb a b && is_prefix p' q'
  end.

(** Neither path leads through the other. *)
Definition apart (p q : list string) : bool :=
  negb (is_prefix p q) && negb (is_prefix q p).

(** The paths [write_file] assigns to: the name, the cells, and the
    recognized metadata paths under [properties]. *)
Definition overwritten_paths : list (list string) :=
  ["name"] :: ["properties"; "cells"]
  :: map (fun entry => "properties" :: PyStr.split "." (snd entry))
         SynapseNotebookFormat.meta_properties.

Definition untouched (p : list string) : bool :=
  forallb (apart p) overwritten_paths.

(** [doc'] holds what [doc] holds wherever [write_file] does not assign. *)
Definition preserved (doc doc' : pyval) : Prop :=
  forall p, untouched p = true -> get_walk doc' p = get_walk doc p.

(** The decoding of a quoted literal in the words of the specification:
    one quote off each end, then each backslash-quote pair back to a quote,
    backslashes otherwise kept. *)
Definition decode_quoted_spec (text : string) : string :=
  PyStr.replace (PyStr.slice text (Some 1%Z) (Some (-1)%Z))
                (String backslash (str1 dquote)) (str1 dquote).

(** Trailing blank lines trimmed, in the words of the specification: the
    text ends with the newline of its last non-blank line. *)
Definition trim_trailing_blank_lines (text : string) : string :=
  match PyStr.rstrip (PyStr.in_chars (str1 newline)) text with
  | EmptyString => EmptyString
  | kept => kept ++ str1 newline
  end.

(** The contents of a cell in the words of the specification: the source
    lines with one newline each, joined, then trimmed. *)
Definition cell_content_spec (lines : list string) : string :=
  trim_trailing_blank_lines
    (String.concat EmptyString
       (map (fun line => PyStr.rstrip (PyStr.in_chars (str1 newline)) line ++ str1 newline)
            lines)).

(** ** Sample data *)

Module Sample.

(** A runtime that resolves paths under the root directory and whose
    JSON reader knows one document text. *)
Definition runtime (text : string) (doc : pyval) : Runtime :=
  {| abspath := fun path => "/" ++ path;
     float_of_str := fun _ => None;
     json_loads := fun t => if String.eqb t text then Some doc else None;
     json_dumps := fun _ => "{...}";
     container_str := fun _ => "[...]" |}.

Definition x_line : string := String "x" (str1 newline).

(** The source lines x-newline, newline, newline. *)
Definition blank_tail_source : list string := [x_line; str1 newline; str1 newline].

Definition blank_tail_cell : pyval :=
  VDict [ ("cell_type", VStr "code");
          ("source", VList (map VStr blank_tail_source)) ].

Definition tagged_cell : pyval :=
  VDict [ ("cell_type", VStr "code");
          ("source", VList [VStr x_line]);
          ("metadata", VDict [("tags", VList [VStr "t"])]) ].

(** A document with the four recognized keys set, one tagged cell and an
    unrecognized top-level field. *)
Definition document : pyval :=
  VDict [ ("name", VStr "nb");
          ("properties",
           VDict [ ("folder", VDict [("name", VStr "f")]);
                   ("nbformat", VInt 4);
                   ("nbformat_minor", VInt 2);
                   ("metadata",
                    VDict [("language_info", VDict [("name", VStr "python")])]);
                   ("cells", VList [tagged_cell]) ]);
          ("custom", VInt 1) ].

Definition rt : Runtime := runtime "doc" document.

Definition disk : filesystem :=
  fun path => if String.eqb path "/nb.json" then Some "doc" else None.

Definition notebook : NotebookData :=
  {| name := VStr "nb"; properties := [("nbformat", VInt 4)]; cells := [] |}.

Definition quoted (s : string) : string := String dquote (s ++ str1 dquote).

(** The text [pull_notebook] writes for [document]. *)
Definition pulled_text : string :=
  "@meta name " ++ quoted "nb" ++ str1 newline
  ++ "@meta folder " ++ quoted "f" ++ str1 newline
  ++ "@meta nbformat 4" ++ str1 newline
  ++ "@meta nbformat_minor 2" ++ str1 newline
  ++ "@meta language " ++ quoted "python" ++ str1 newline
  ++ "@cell code [t]" ++ str1 newline
  ++ x_line ++ str1 newline.

(** The document [push_notebook] then leaves: the tag list is an entry of
    the cell itself, no longer under the cell's metadata. *)
Definition pushed_document : pyval :=
  VDict [ ("name", VStr "nb");
          ("properties",
           VDict [ ("folder", VDict [("name", VStr "f")]);
                   ("nbformat", VInt 4);
                   ("nbformat_minor", VInt 2);
                   ("metadata",
                    VDict [("language_info", VDict [("name", VStr "python")])]);
                   ("cells",
                    VList [ VDict [ ("cell_type", VStr "code");
                                    ("source", VList [VStr x_line]);
                                    ("tags", VList [VStr "t"]);
                                    ("execution_count", VInt 0) ] ]) ]);
          ("custom", VInt 1) ].

(** A text with a line that starts with the at sign and names neither
    directive, inside a cell; and the same text without that line. *)
Definition text_with_decorator : string :=
  "@cell code" ++ str1 newline ++ "@foo bar" ++ str1 newline ++ "x".

Definition text_without_decorator : string :=
  "@cell code" ++ str1 newline ++ "x".

(** The quoted literal of a, backslash, backslash, b. *)
Definition doubled_backslash : string :=
  String dquote ("a\\b" ++ str1 dquote).

End Sample.

(** * Properties *)

(** ** Strings *)

Section StringFacts.

Import PyStr.

Lemma append_empty_r (s : string) : s ++ EmptyString = s.
Proof. induction s as [|c s IH]; simpl; [reflexivity | now rewrite IH]. Qed.

Lemma append_assoc (a b c : string) : (a ++ b) ++ c = a ++ (b ++ c).
Proof. induction a as [|x a IH]; simpl; [reflexivity | now rewrite IH]. Qed.

(** A pattern whose first character is absent from the text is never
    found, so [replace] returns the text. *)
Lemma replace_absent (c : ascii) (old new s : string) :
  in_chars s c = false ->
  replace s (String c old) new = s.
Proof.
  unfold replace. induction s as [|a s IH]; simpl; intros H; [reflexivity|].
  apply orb_false_elim in H. destruct H as [Hca Hs].
  rewrite Ascii.eqb_sym in Hca.
  destruct (ascii_dec c a) as [->|Hne].
  - rewrite Ascii.eqb_refl in Hca. discriminate.
  - f_equal. apply IH, Hs.
Qed.

Lemma in_chars_single (c d : ascii) : in_chars (str1 d) c = Ascii.eqb c d.
Proof. simpl. apply orb_false_r. Qed.

(** [in_chars s c] read the other way round: no character of [s]
    is [c]. *)
Lemma rstrip_absent (c : ascii) (s : string) :
  in_chars s c = false ->
  rstrip (in_chars (str1 c)) s = s.
Proof.
  induction s as [|a s IH]; intros H; [reflexivity|].
  cbn [in_chars] in H. apply orb_false_elim in H. destruct H as [Hca Hs].
  cbn [rstrip]. rewrite (IH Hs). destruct s; [|reflexivity].
  rewrite in_chars_single, Ascii.eqb_sym, Hca. reflexivity.
Qed.

Lemma rstrip_append_stripped (p : ascii -> bool) (s : string) (c : ascii) :
  p c = true -> rstrip p (s ++ str1 c) = rstrip p s.
Proof.
  intros Hc. induction s as [|a s IH]; simpl.
  - now rewrite Hc.
  - now rewrite IH.
Qed.

Lemma endswith_char_append (s : string) (c : ascii) :
  endswith_char (s ++ str1 c) c = true.
Proof.
  induction s as [|a s IH]; simpl.
  - apply Ascii.eqb_refl.
  - destruct (s ++ str1 c) eqn:E; [destruct s; discriminate | exact IH].
Qed.

(** Around a body that holds no quote, [strip] of the quote removes the two
    enclosing quotes and nothing else. *)
Lemma strip_quotes (body : string) :
  in_chars body dquote = false ->
  strip (in_chars (str1 dquote)) (String dquote (body ++ str1 dquote)) = body.
Proof.
  intros H. unfold strip.
  assert (Hl : lstrip (in_chars (str1 dquote)) (String dquote (body ++ str1 dquote))
               = lstrip (in_chars (str1 dquote)) (body ++ str1 dquote))
    by reflexivity.
  rewrite Hl. clear Hl.
  destruct body as [|a body]; [reflexivity|].
  pose proof H as H'. cbn [in_chars] in H'.
  apply orb_false_elim in H'. destruct H' as [Ha _].
  assert (Hl : lstrip (in_chars (str1 dquote)) (String a body ++ str1 dquote)
               = String a body ++ str1 dquote).
  { cbn [append lstrip]. rewrite in_chars_single, Ascii.eqb_sym, Ha. reflexivity. }
  rewrite Hl, rstrip_append_stripped by reflexivity.
  apply rstrip_absent, H.
Qed.

End StringFacts.

(** ** The scalar literal codec *)

Lemma value_str_plain (rt : Runtime) (s : string) :
  PyStr.in_chars s dquote = false ->
  PyStr.in_chars s backslash = false ->
  value_str rt (VStr s) = String dquote (s ++ str1 dquote).
Proof.
  intros Hq Hb. unfold value_str.
  rewrite (replace_absent backslash EmptyString _ s Hb).
  rewrite (replace_absent dquote EmptyString _ s Hq).
  reflexivity.
Qed.

(** The value [parse_value] gives for a quoted literal whose body holds no
    quote: the body, with each doubled backslash made single. *)
Lemma parse_value_quoted_body (rt : Runtime) (body : string) :
  PyStr.in_chars body dquote = false ->
  parse_value rt (String dquote (body ++ str1 dquote))
  = VStr (PyStr.replace body (String backslash (str1 backslash)) (str1 backslash)).
Proof.
  intros Hq. unfold parse_value.
  assert (Hs : PyStr.startswith (String dquote (body ++ str1 dquote)) (str1 dquote) = true)
    by (destruct body; reflexivity).
  assert (He : PyStr.endswith (String dquote (body ++ str1 dquote)) (str1 dquote) = true)
    by apply (endswith_char_append (String dquote body) dquote).
  rewrite Hs, He. cbn [andb].
  rewrite (strip_quotes body Hq).
  rewrite (replace_absent dquote EmptyString _ body Hq).
  reflexivity.
Qed.

(** C9: for every string [s] that holds no double quote and no backslash,
    decoding the encoding of [s] gives [s] back:
    [parse_value (value_str s) = s]. *)
Theorem parse_value_value_str (rt : Runtime) (s : string) :
  PyStr.in_chars s dquote = false ->
  PyStr.in_chars s backslash = false ->
  parse_value rt (value_str rt (VStr s)) = VStr s.
Proof.
  intros Hq Hb.
  rewrite (value_str_plain rt s Hq Hb), (parse_value_quoted_body rt s Hq).
  now rewrite (replace_absent backslash (str1 backslash) _ s Hb).
Qed.

Lemma parse_value_value_str_witness :
  PyStr.in_chars "abc" dquote = false /\
  PyStr.in_chars "abc" backslash = false /\
  parse_value Sample.rt (value_str Sample.rt (VStr "abc")) = VStr "abc".
Proof.
  split; [reflexivity|]. split; [reflexivity|].
  apply (parse_value_value_str Sample.rt "abc"); reflexivity.
Defined.

(** C4, as the specification words it, fails: on the quoted literal of
    a, backslash, backslash, b the code returns a, backslash, b, so the
    doubled backslash is made single, where the claimed decoding keeps both
    backslashes. *)
Lemma parse_value_undoubles_backslash :
  PyStr.startswith Sample.doubled_backslash (str1 dquote) = true /\
  PyStr.endswith Sample.doubled_backslash (str1 dquote) = true /\
  parse_value Sample.rt Sample.doubled_backslash = VStr "a\b" /\
  parse_value Sample.rt Sample.doubled_backslash
  <> VStr (decode_quoted_spec Sample.doubled_backslash).
Proof.
  repeat split; try reflexivity. vm_compute. discriminate.
Qed.

(** C4, amended: for every text that starts and ends with a double quote,
    [parse_value] returns a string; and when the text is a quote, a body
    that holds no double quote, and a quote, that string is the body with
    each doubled backslash replaced by a single backslash.  (What happens
    to a double quote inside the body is not part of this statement.) *)
Theorem parse_value_quoted (rt : Runtime) (text : string) :
  PyStr.startswith text (str1 dquote) = true ->
  PyStr.endswith text (str1 dquote) = true ->
  (exists s, parse_value rt text = VStr s) /\
  (forall body,
      text = String dquote (body ++ str1 dquote) ->
      PyStr.in_chars body dquote = false ->
      parse_value rt text
      = VStr (PyStr.replace body (String backslash (str1 backslash)) (str1 backslash))).
Proof.
  intros Hs He. split.
  - unfold parse_value. rewrite Hs, He. cbn [andb]. eexists. reflexivity.
  - intros body -> Hq. apply parse_value_quoted_body, Hq.
Qed.

Lemma parse_value_quoted_witness :
  (exists s, parse_value Sample.rt Sample.doubled_backslash = VStr s) /\
  (forall body,
      Sample.doubled_backslash = String dquote (body ++ str1 dquote) ->
      PyStr.in_chars body dquote = false ->
      parse_value Sample.rt Sample.doubled_backslash
      = VStr (PyStr.replace body (String backslash (str1 backslash)) (str1 backslash))).
Proof.
  apply (parse_value_quoted Sample.rt Sample.doubled_backslash); reflexivity.
Defined.

(** ** The property path accessor *)

(** C3, at the specification's own example: on the empty map and the path
    a.b the code raises [KeyError] for the key a, since the loop reads
    [dict_sect[part]] without having created it.  More generally the walk
    raises [KeyError] at every absent intermediate key and [TypeError] at
    every intermediate value that is not a map; it succeeds on the example
    only when the intermediate map is already there. *)
Theorem set_property_value_missing_intermediate :
  set_property_value (VDict []) "a.b" (VInt 7) = Raise (KeyError "a") /\
  set_property_value (VDict [("a", VDict [])]) "a.b" (VInt 7)
  = Ok (VDict [("a", VDict [("b", VInt 7)])]) /\
  (forall d part next rest value,
      Dict.get d part = None ->
      set_walk (VDict d) (part :: next :: rest) value = Raise (KeyError part)) /\
  (forall obj part next rest value,
      (forall d, obj <> VDict d) ->
      set_walk obj (part :: next :: rest) value = Raise TypeError).
Proof.
  split; [reflexivity|]. split; [reflexivity|]. split.
  - intros d part next rest value H. cbn [set_walk bind Py.getitem]. now rewrite H.
  - intros obj part next rest value H.
    destruct obj as [| | | | | |d]; try reflexivity. now elim (H d).
Qed.

(** ** The document format: reading *)

(** What [rstrip] of the newline leaves: a body that does not end in a
    newline, followed in the original by newlines only. *)
Lemma rstrip_newline_spec (s : string) :
  PyStr.endswith_char (PyStr.rstrip (PyStr.in_chars (str1 newline)) s) newline = false /\
  exists k, s = PyStr.rstrip (PyStr.in_chars (str1 newline)) s ++ newlines k.
Proof.
  induction s as [|c s [IHe [k IHk]]]; [split; [reflexivity | now exists 0]|].
  cbn [PyStr.rstrip].
  destruct (PyStr.rstrip (PyStr.in_chars (str1 newline)) s) as [|d kept] eqn:E.
  - rewrite in_chars_single.
    destruct (Ascii.eqb c newline) eqn:Hc.
    + apply Ascii.eqb_eq in Hc. subst c.
      split; [reflexivity|]. exists (S k). cbn [append newlines]. now rewrite IHk at 1.
    + split; [cbn; exact Hc|]. exists k. cbn [append str1]. now rewrite IHk at 1.
  - split; [exact IHe|]. exists k. cbn [append]. f_equal. exact IHk.
Qed.

Lemma concat_empty_cons (piece : string) (pieces : list string) :
  String.concat EmptyString (piece :: pieces)
  = piece ++ String.concat EmptyString pieces.
Proof.
  destruct pieces; cbn [String.concat append]; [now rewrite append_empty_r | reflexivity].
Qed.

Lemma concat_empty_app (l1 l2 : list string) :
  String.concat EmptyString (l1 ++ l2)
  = String.concat EmptyString l1 ++ String.concat EmptyString l2.
Proof.
  induction l1 as [|piece l1 IH]; [reflexivity|].
  change ((piece :: l1) ++ l2)%list with (piece :: (l1 ++ l2)%list).
  now rewrite !concat_empty_cons, IH, append_assoc.
Qed.

(** [k] blank source lines give [k] newlines of contents. *)
Lemma blank_lines_pieces (k : nat) :
  String.concat EmptyString
    (map (fun line => PyStr.rstrip (PyStr.in_chars (str1 newline)) line ++ str1 newline)
         (repeat (str1 newline) k))
  = newlines k.
Proof.
  induction k as [|k IH]; [reflexivity|].
  cbn [repeat map]. rewrite concat_empty_cons, IH. reflexivity.
Qed.

Lemma source_lines_ok (lines : list string) :
  for_each SynapseNotebookFormat.source_line (map VStr lines)
  = Ok (map (fun line => PyStr.rstrip (PyStr.in_chars (str1 newline)) line ++ str1 newline)
            lines).
Proof.
  induction lines as [|line lines IH]; [reflexivity|].
  cbn [map for_each SynapseNotebookFormat.source_line bind]. now rewrite IH.
Qed.

(** C5, as the specification words it, fails: for the source lines
    x-newline, newline, newline the claimed contents is x-newline, but the
    reader produces x followed by three newlines. *)
Lemma read_cell_keeps_blank_tail :
  cell_content_spec Sample.blank_tail_source = Sample.x_line /\
  SynapseNotebookFormat.read_cell Sample.blank_tail_cell
  = Ok {| cell_type := VStr "code";
          contents := "x" ++ newlines 3;
          attributes := VList [] |} /\
  "x" ++ newlines 3 <> cell_content_spec Sample.blank_tail_source.
Proof.
  split; [reflexivity|]. split; [reflexivity|]. vm_compute. discriminate.
Qed.

(** C5, amended: the document-format reader trims no trailing blank line.
    For every cell whose source is a list of strings, the produced
    contents is the concatenation, in order, of one piece per source line:
    the line without its trailing newlines, then exactly one newline.  So a
    blank source line at the end stays as a newline of the contents, and
    the source lines x-newline, newline, newline yield x followed by three
    newlines. *)
Theorem cell_content_line_by_line (lines : list string) :
  (exists bodies,
      SynapseNotebookFormat.cell_content (VList (map VStr lines))
      = Ok (String.concat EmptyString (map (fun body => body ++ str1 newline) bodies)) /\
      Forall2 (fun line body =>
                 PyStr.endswith_char body newline = false /\
                 exists k, line = body ++ newlines k)
              lines bodies) /\
  (forall body k,
      SynapseNotebookFormat.cell_content (VList (map VStr lines)) = Ok body ->
      SynapseNotebookFormat.cell_content
        (VList (map VStr (lines ++ repeat (str1 newline) k)))
      = Ok (body ++ newlines k)) /\
  SynapseNotebookFormat.cell_content (VList (map VStr Sample.blank_tail_source))
  = Ok ("x" ++ newlines 3).
Proof.
  unfold SynapseNotebookFormat.cell_content. cbn [Py.iter bind].
  split; [|split; [|reflexivity]].
  - exists (map (PyStr.rstrip (PyStr.in_chars (str1 newline))) lines).
    rewrite source_lines_ok. cbn [bind]. rewrite map_map. split; [reflexivity|].
    induction lines as [|line lines IH]; constructor; [apply rstrip_newline_spec | exact IH].
  - intros body k. rewrite !source_lines_ok. cbn [bind]. unfold PyStr.join.
    intros H. injection H as <-.
    now rewrite map_app, concat_empty_app, blank_lines_pieces.
Qed.

(** C10: the document-format reader returns a notebook only for a document
    that is a map whose [properties] value is a map holding a [cells] entry
    that can be iterated.  For a loaded document that is a map: when
    [properties] is absent or is not a map, [read_file] raises
    [AttributeError]; when [properties] is a map without [cells], it raises
    [TypeError]; in neither case does it return a notebook with no cells. *)
Theorem read_file_needs_cells (rt : Runtime) (fs : filesystem) (src text : string)
  (file_data : pyval) :
  fs src = Some text ->
  json_loads rt text = Some file_data ->
  (forall nb,
      SynapseNotebookFormat.read_file rt fs src = Ok nb ->
      exists top props cells_obj entries,
        file_data = VDict top /\
        Dict.get top "properties" = Some (VDict props) /\
        Dict.get props "cells" = Some cells_obj /\
        Py.iter cells_obj = Ok entries) /\
  (forall top,
      file_data = VDict top ->
      (forall props, Dict.get top "properties" <> Some (VDict props)) ->
      SynapseNotebookFormat.read_file rt fs src = Raise AttributeError) /\
  (forall top props,
      file_data = VDict top ->
      Dict.get top "properties" = Some (VDict props) ->
      Dict.get props "cells" = None ->
      SynapseNotebookFormat.read_file rt fs src = Raise TypeError).
Proof.
  intros Hfs Hload. unfold SynapseNotebookFormat.read_file. rewrite Hfs, Hload.
  unfold SynapseNotebookFormat.read_data, Py.get.
  split; [|split].
  - intros nb H.
    destruct file_data as [| | | | | |top]; try discriminate H.
    cbn [Py.get_default bind] in H.
    destruct (Dict.get top "properties") as [[| | | | | |props]|] eqn:Hp;
      try discriminate H.
    cbn [Py.get_default bind] in H.
    destruct (Dict.get props "cells") as [cells_obj|] eqn:Hc; [|discriminate H].
    destruct (Py.iter cells_obj) as [entries|e] eqn:Hi; [|discriminate H].
    exists top, props, cells_obj, entries. repeat split; assumption.
  - intros top -> Hno. cbn [Py.get_default bind].
    destruct (Dict.get top "properties") as [[| | | | | |props]|] eqn:Hp;
      try reflexivity.
    now elim (Hno props).
  - intros top props -> Hp Hc. cbn [Py.get_default bind]. rewrite Hp.
    cbn [Py.get_default bind]. rewrite Hc. reflexivity.
Qed.

Lemma read_file_needs_cells_witness :
  Sample.disk "/nb.json" = Some "doc" /\
  json_loads Sample.rt "doc" = Some Sample.document /\
  (forall nb,
      SynapseNotebookFormat.read_file Sample.rt Sample.disk "/nb.json" = Ok nb ->
      exists top props cells_obj entries,
        Sample.document = VDict top /\
        Dict.get top "properties" = Some (VDict props) /\
        Dict.get props "cells" = Some cells_obj /\
        Py.iter cells_obj = Ok entries).
Proof.
  split; [reflexivity|]. split; [reflexivity|].
  apply (read_file_needs_cells Sample.rt Sample.disk "/nb.json" "doc" Sample.document);
    reflexivity.
Defined.

(** ** The document format: writing *)

(** C2, on the code: with no file at the destination, [write_file] raises
    [NameError] for every notebook, before anything is written, because
    the fallback it calls is a name that is bound nowhere; so does
    [push_notebook] whenever its text source exists and its destination
    does not. *)
Theorem write_file_without_destination (rt : Runtime) (fs : filesystem)
  (dest : string) (nb : NotebookData) :
  fs dest = None ->
  SynapseNotebookFormat.write_file rt fs dest nb
  = (Raise (NameError "_get_detault_notebook_data"), fs) /\
  (forall location src,
      to_abs_path rt src = dest ->
      file_exists fs (to_abs_path rt location) = true ->
      push_notebook rt fs location src
      = (Raise (NameError "_get_detault_notebook_data"), fs)).
Proof.
  intros Hnone. split.
  - unfold SynapseNotebookFormat.write_file. now rewrite Hnone.
  - intros location src Hsrc Hloc. unfold push_notebook. rewrite Hloc. cbn [negb].
    unfold ScratchpadNotebookFormat.read_file.
    unfold file_exists in Hloc.
    destruct (fs (to_abs_path rt location)); [|discriminate Hloc].
    unfold SynapseNotebookFormat.write_file. now rewrite Hsrc, Hnone.
Qed.

Lemma write_file_without_destination_witness :
  Sample.disk "/new.json" = None /\
  SynapseNotebookFormat.write_file Sample.rt Sample.disk "/new.json" Sample.notebook
  = (Raise (NameError "_get_detault_notebook_data"), Sample.disk).
Proof.
  split; [reflexivity|].
  apply (write_file_without_destination Sample.rt Sample.disk "/new.json" Sample.notebook).
  reflexivity.
Defined.

(** ** Which exceptions the formats raise *)

Create HintDb builtin.

Lemma builtin_ok {A : Type} (a : A) : builtin_only (Ok a).
Proof. intros e H. discriminate H. Qed.

Lemma builtin_raise {A : Type} (e : exn) :
  is_workbench_error e = false -> builtin_only (@Raise A e).
Proof. intros He e' H. now injection H as <-. Qed.

Lemma builtin_bind {A B : Type} (r : result A) (k : A -> result B) :
  builtin_only r -> (forall a, builtin_only (k a)) -> builtin_only (bind r k).
Proof.
  intros Hr Hk e H. destruct r as [a|e']; cbn [bind] in H.
  - exact (Hk a e H).
  - apply (Hr e). now injection H as <-.
Qed.

Lemma builtin_for_each {A B : Type} (f : A -> result B) (l : list A) :
  (forall a, builtin_only (f a)) -> builtin_only (for_each f l).
Proof.
  intros Hf. induction l as [|a l IH]; cbn [for_each].
  - apply builtin_ok.
  - apply builtin_bind; [apply Hf|]. intros b.
    apply builtin_bind; [exact IH|]. intros bs. apply builtin_ok.
Qed.

Lemma builtin_get_default (obj : pyval) (key : string) (default : pyval) :
  builtin_only (Py.get_default obj key default).
Proof. destruct obj; intros e H; try discriminate H; now injection H as <-. Qed.

Lemma builtin_getitem (obj : pyval) (key : string) : builtin_only (Py.getitem obj key).
Proof.
  destruct obj; intros e H; cbn in H; try (now injection H as <-).
  destruct (Dict.get fields key); [discriminate H | now injection H as <-].
Qed.

Lemma builtin_setitem (obj : pyval) (key : string) (v : pyval) :
  builtin_only (Py.setitem obj key v).
Proof. destruct obj; intros e H; try discriminate H; now injection H as <-. Qed.

Lemma builtin_iter (obj : pyval) : builtin_only (Py.iter obj).
Proof. destruct obj; intros e H; try discriminate H; now injection H as <-. Qed.

Lemma builtin_len (obj : pyval) : builtin_only (Py.len obj).
Proof. destruct obj; intros e H; try discriminate H; now injection H as <-. Qed.

#[local] Hint Resolve builtin_ok builtin_get_default builtin_getitem builtin_setitem
  builtin_iter builtin_len : builtin.

Ltac builtin_steps :=
  repeat (first [ apply builtin_bind; [|intros ?]
                | apply builtin_for_each; intros ?
                | apply builtin_raise; reflexivity
                | solve [auto with builtin] ]).

Lemma builtin_set_walk (path_parts : list string) (obj value : pyval) :
  builtin_only (set_walk obj path_parts value).
Proof.
  revert obj. induction path_parts as [|part rest IH]; intros obj.
  - now apply builtin_raise.
  - destruct rest as [|next rest]; [apply builtin_setitem|].
    change (builtin_only
              (sect <- match obj with
                       | VDict _ => Ok obj
                       | _ => Py.setitem obj part (VDict [])
                       end ;;
               child <- Py.getitem sect part ;;
               child' <- set_walk child (next :: rest) value ;;
               Py.setitem sect part child')).
    builtin_steps. destruct obj; auto with builtin.
Qed.

Lemma builtin_set_property_value (obj : pyval) (path : string) (value : pyval) :
  builtin_only (set_property_value obj path value).
Proof. apply builtin_set_walk. Qed.

#[local] Hint Resolve builtin_set_property_value : builtin.

Lemma builtin_read_data (file_data : pyval) :
  builtin_only (SynapseNotebookFormat.read_data file_data).
Proof.
  unfold SynapseNotebookFormat.read_data, Py.get. builtin_steps.
  unfold SynapseNotebookFormat.read_cell, SynapseNotebookFormat.cell_content, Py.get.
  builtin_steps.
  all: match goal with |- builtin_only (SynapseNotebookFormat.source_line ?l) =>
         destruct l; first [apply builtin_ok | apply builtin_raise; reflexivity]
       end.
Qed.

Lemma builtin_write_properties (items : list (string * pyval)) (props : pyval) :
  builtin_only (SynapseNotebookFormat.write_properties props items).
Proof.
  revert props. induction items as [|[prop_name prop_value] items IH]; intros props;
    cbn [SynapseNotebookFormat.write_properties].
  - apply builtin_ok.
  - destruct (SynapseNotebookFormat.meta_path prop_name SynapseNotebookFormat.meta_properties);
      [|apply IH].
    apply builtin_bind; [apply builtin_set_property_value | intros props'; apply IH].
Qed.

Lemma builtin_write_data (file_data : pyval) (nb_data : NotebookData) :
  builtin_only (SynapseNotebookFormat.write_data file_data nb_data).
Proof.
  unfold SynapseNotebookFormat.write_data.
  apply builtin_bind; [apply builtin_set_property_value | intros fd].
  apply builtin_bind; [apply builtin_get_default | intros props].
  apply builtin_bind; [apply builtin_write_properties | intros props1].
  apply builtin_bind; [|intros cs; builtin_steps].
  apply builtin_for_each. intros cell. unfold SynapseNotebookFormat.write_cell.
  builtin_steps.
Qed.

Lemma builtin_write_text (rt : Runtime) (nb_data : NotebookData) :
  builtin_only (ScratchpadNotebookFormat.write_text rt nb_data).
Proof.
  unfold ScratchpadNotebookFormat.write_text.
  apply builtin_bind; [|intros texts; apply builtin_ok].
  apply builtin_for_each. intros cell. unfold ScratchpadNotebookFormat.write_cell.
  apply builtin_bind; [apply builtin_len | intros n].
  apply builtin_bind; [|intros a; apply builtin_ok].
  destruct (0 <? n)%nat; [|apply builtin_ok].
  apply builtin_bind; [apply builtin_iter | intros items].
  apply builtin_bind; [|intros tags; apply builtin_ok].
  apply builtin_for_each. intros item.
  destruct item; first [apply builtin_ok | now apply builtin_raise].
Qed.

(** Neither format reader or writer raises the program's own error. *)
Lemma builtin_synapse_read_file (rt : Runtime) (fs : filesystem) (src : string) :
  builtin_only (SynapseNotebookFormat.read_file rt fs src).
Proof.
  unfold SynapseNotebookFormat.read_file.
  destruct (fs src) as [text|]; [|now apply builtin_raise].
  destruct (json_loads rt text); [apply builtin_read_data | now apply builtin_raise].
Qed.

Lemma builtin_synapse_write_file (rt : Runtime) (fs : filesystem) (dest : string)
  (nb_data : NotebookData) :
  builtin_only (fst (SynapseNotebookFormat.write_file rt fs dest nb_data)).
Proof.
  unfold SynapseNotebookFormat.write_file.
  destruct (fs dest) as [text|]; [|now apply builtin_raise].
  destruct (json_loads rt text) as [doc|]; [|now apply builtin_raise].
  destruct (SynapseNotebookFormat.write_data doc nb_data) as [fd|e] eqn:E;
    [apply builtin_ok|].
  intros e' H. cbn [fst] in H. injection H as <-.
  exact (builtin_write_data doc nb_data e E).
Qed.

Lemma builtin_scratchpad_write_file (rt : Runtime) (fs : filesystem) (dest : string)
  (nb_data : NotebookData) :
  builtin_only (fst (ScratchpadNotebookFormat.write_file rt fs dest nb_data)).
Proof.
  unfold ScratchpadNotebookFormat.write_file.
  destruct (ScratchpadNotebookFormat.write_text rt nb_data) as [t|e] eqn:E;
    [apply builtin_ok|].
  intros e' H. cbn [fst] in H. injection H as <-.
  exact (builtin_write_text rt nb_data e E).
Qed.

(** ** The orchestrator *)

(** C8: [push_notebook] raises the not-found error exactly when no file is
    at the absolute path of its text source, and [pull_notebook] exactly
    when no file is at the absolute path of its document; the error's
    message holds that absolute path, and the file system is as it was, so
    nothing was written.  No other failure of either function is a
    [WorkbenchError]. *)
Theorem not_found_exactly_when_source_missing (rt : Runtime) (fs : filesystem)
  (location src : string) :
  ((exists msg fs', push_notebook rt fs location src = (Raise (WorkbenchError msg), fs'))
   <-> fs (to_abs_path rt location) = None) /\
  (fs (to_abs_path rt location) = None ->
   push_notebook rt fs location src
   = (Raise (WorkbenchError ("File not found '" ++ to_abs_path rt location ++ "'")), fs)) /\
  ((exists msg fs', pull_notebook rt fs location src = (Raise (WorkbenchError msg), fs'))
   <-> fs (to_abs_path rt src) = None) /\
  (fs (to_abs_path rt src) = None ->
   pull_notebook rt fs location src
   = (Raise (WorkbenchError ("File not found '" ++ to_abs_path rt src ++ "'")), fs)).
Proof.
  assert (Hpush : fs (to_abs_path rt location) = None ->
                  push_notebook rt fs location src
                  = (Raise (not_found (to_abs_path rt location)), fs)).
  { intros H. unfold push_notebook, file_exists. now rewrite H. }
  assert (Hpull : fs (to_abs_path rt src) = None ->
                  pull_notebook rt fs location src
                  = (Raise (not_found (to_abs_path rt src)), fs)).
  { intros H. unfold pull_notebook, file_exists. now rewrite H. }
  split; [|split; [exact Hpush | split; [|exact Hpull]]].
  - split; [|intros H; rewrite (Hpush H); now eexists _, _].
    intros [msg [fs' H]].
    destruct (fs (to_abs_path rt location)) as [text|] eqn:Hloc; [exfalso | reflexivity].
    unfold push_notebook, file_exists in H. rewrite Hloc in H. cbn [negb] in H.
    unfold ScratchpadNotebookFormat.read_file in H. rewrite Hloc in H.
    pose proof (builtin_synapse_write_file rt fs (to_abs_path rt src)
                  (ScratchpadNotebookFormat.read_text rt (universal_newlines text))
                  (WorkbenchError msg)) as Hb.
    rewrite H in Hb. discriminate (Hb eq_refl).
  - split; [|intros H; rewrite (Hpull H); now eexists _, _].
    intros [msg [fs' H]].
    destruct (fs (to_abs_path rt src)) as [text|] eqn:Hsrc; [exfalso | reflexivity].
    unfold pull_notebook, file_exists in H. rewrite Hsrc in H. cbn [negb] in H.
    destruct (SynapseNotebookFormat.read_file rt fs (to_abs_path rt src)) as [nb|e] eqn:E.
    + pose proof (builtin_scratchpad_write_file rt fs (to_abs_path rt location) nb
                    (WorkbenchError msg)) as Hb.
      rewrite H in Hb. discriminate (Hb eq_refl).
    + injection H as -> _.
      discriminate (builtin_synapse_read_file rt fs (to_abs_path rt src) _ E).
Qed.

(** ** Merging into an existing document *)

Lemma dict_get_set_same (d : Dict.t) (key : string) (v : pyval) :
  Dict.get (Dict.set d key v) key = Some v.
Proof.
  induction d as [|[k w] d IH]; cbn [Dict.set Dict.get].
  - now rewrite String.eqb_refl.
  - destruct (String.eqb k key) eqn:E; cbn [Dict.get]; now rewrite E.
Qed.

Lemma dict_get_set_other (d : Dict.t) (key other : string) (v : pyval) :
  String.eqb key other = false ->
  Dict.get (Dict.set d key v) other = Dict.get d other.
Proof.
  intros Hne. induction d as [|[k w] d IH]; cbn [Dict.set Dict.get].
  - now rewrite Hne.
  - destruct (String.eqb k key) eqn:E; cbn [Dict.get]; [|now rewrite IH].
    apply String.eqb_eq in E. subst k. now rewrite Hne.
Qed.

Lemma set_walk_step (obj : pyval) (part next : string) (rest : list string)
  (value : pyval) :
  set_walk obj (part :: next :: rest) value
  = (sect <- match obj with
             | VDict _ => Ok obj
             | _ => Py.setitem obj part (VDict [])
             end ;;
     child <- Py.getitem sect part ;;
     child' <- set_walk child (next :: rest) value ;;
     Py.setitem sect part child').
Proof. reflexivity. Qed.

Lemma apart_cons_same (key : string) (p q : list string) :
  apart (key :: p) (key :: q) = apart p q.
Proof. unfold apart. cbn [is_prefix]. now rewrite String.eqb_refl. Qed.

Lemma apart_single (key other : string) (p : list string) :
  apart (key :: p) [other] = true -> String.eqb other key = false.
Proof.
  unfold apart. cbn [is_prefix]. rewrite andb_true_r.
  intros H. apply andb_true_iff in H. destruct H as [_ H].
  now apply negb_true_iff in H.
Qed.

(** An assignment through [set_property_value] leaves every value that
    lies apart from the assigned path where it was. *)
Lemma set_walk_frame (path_parts : list string) :
  forall obj obj' value p,
    set_walk obj path_parts value = Ok obj' ->
    apart p path_parts = true ->
    get_walk obj' p = get_walk obj p.
Proof.
  induction path_parts as [|part rest IH]; intros obj obj' value p Hset Hp;
    [discriminate Hset|].
  destruct p as [|key p]; [discriminate Hp|].
  destruct rest as [|next rest].
  - cbn [set_walk] in Hset. destruct obj; try discriminate Hset.
    cbn [Py.setitem] in Hset. injection Hset as <-.
    cbn [get_walk]. now rewrite (dict_get_set_other _ _ _ _ (apart_single _ _ _ Hp)).
  - rewrite set_walk_step in Hset.
    destruct obj as [| | | | | |d]; try discriminate Hset.
    cbn [bind Py.getitem] in Hset.
    destruct (Dict.get d part) as [child|] eqn:Hchild; [|discriminate Hset].
    cbn [bind] in Hset.
    destruct (set_walk child (next :: rest) value) as [child'|e] eqn:Hrec;
      [|discriminate Hset].
    cbn [bind Py.setitem] in Hset. injection Hset as <-.
    cbn [get_walk].
    destruct (String.eqb part key) eqn:Hk.
    + apply String.eqb_eq in Hk. subst key.
      rewrite apart_cons_same in Hp.
      rewrite dict_get_set_same, Hchild. exact (IH _ _ _ _ Hrec Hp).
    + now rewrite (dict_get_set_other _ _ _ _ Hk).
Qed.

Lemma write_properties_frame (items : list (string * pyval)) :
  forall props props' p,
    SynapseNotebookFormat.write_properties props items = Ok props' ->
    (forall prop_name prop_path,
        SynapseNotebookFormat.meta_path prop_name SynapseNotebookFormat.meta_properties
        = Some prop_path ->
        apart p (PyStr.split "." prop_path) = true) ->
    get_walk props' p = get_walk props p.
Proof.
  induction items as [|[prop_name prop_value] items IH]; intros props props' p Hw Hp;
    cbn [SynapseNotebookFormat.write_properties] in Hw.
  - now injection Hw as <-.
  - destruct (SynapseNotebookFormat.meta_path prop_name SynapseNotebookFormat.meta_properties)
      as [prop_path|] eqn:Hpath; [|exact (IH _ _ _ Hw Hp)].
    destruct (set_property_value props prop_path prop_value) as [props1|e] eqn:Hset;
      [|discriminate Hw].
    cbn [bind] in Hw. rewrite (IH _ _ _ Hw Hp).
    exact (set_walk_frame _ _ _ _ _ Hset (Hp _ _ Hpath)).
Qed.

(** What [untouched] says of a path under [properties]. *)
Lemma untouched_under_properties (p : list string) :
  untouched ("properties" :: p) = true ->
  apart p ["cells"] = true /\
  forall prop_name prop_path,
    SynapseNotebookFormat.meta_path prop_name SynapseNotebookFormat.meta_properties
    = Some prop_path ->
    apart p (PyStr.split "." prop_path) = true.
Proof.
  unfold untouched, overwritten_paths.
  cbn [forallb map SynapseNotebookFormat.meta_properties snd].
  rewrite !apart_cons_same, !andb_true_iff.
  intros [_ [Hcells [Hfolder [Hnb [Hminor [Hlang _]]]]]].
  split; [exact Hcells|].
  intros prop_name prop_path.
  cbn [SynapseNotebookFormat.meta_path SynapseNotebookFormat.meta_properties].
  repeat match goal with
         | |- context [String.eqb ?a prop_name] => destruct (String.eqb a prop_name)
         end;
    intros H; try discriminate H; injection H as <-; assumption.
Qed.

(** The frame of [write_file] on the loaded document. *)
Lemma write_data_frame (file_data file_data' : pyval) (nb_data : NotebookData) :
  SynapseNotebookFormat.write_data file_data nb_data = Ok file_data' ->
  preserved file_data file_data'.
Proof.
  unfold SynapseNotebookFormat.write_data, set_property_value.
  change (PyStr.split "." "name") with ["name"].
  change (PyStr.split "." "cells") with ["cells"].
  change (PyStr.split "." "properties") with ["properties"].
  cbn [set_walk]. intros Hw p Hp.
  destruct file_data as [| | | | | |d]; try discriminate Hw.
  cbn [Py.setitem bind Py.get_default] in Hw.
  rewrite (dict_get_set_other d "name" "properties") in Hw by reflexivity.
  destruct (SynapseNotebookFormat.write_properties
              match Dict.get d "properties" with
              | Some v => v
              | None => VDict []
              end (properties nb_data)) as [props1|e] eqn:Hprops; [|discriminate Hw].
  cbn [bind] in Hw.
  destruct (for_each SynapseNotebookFormat.write_cell (cells nb_data)) as [cs|e];
    [|discriminate Hw].
  cbn [bind] in Hw.
  destruct props1 as [| | | | | |d1]; try discriminate Hw.
  cbn [Py.setitem bind] in Hw. injection Hw as <-.
  destruct p as [|key p]; [discriminate Hp|].
  cbn [get_walk].
  destruct (String.eqb "properties" key) eqn:Hkey.
  - apply String.eqb_eq in Hkey. subst key.
    rewrite dict_get_set_same.
    destruct (untouched_under_properties p Hp) as [Hcells Hmeta].
    assert (Hstep : get_walk (VDict (Dict.set d1 "cells" (VList cs))) p
                    = get_walk (VDict d1) p).
    { destruct p as [|key p]; [discriminate Hcells|]. cbn [get_walk].
      now rewrite (dict_get_set_other _ _ _ _ (apart_single _ _ _ Hcells)). }
    rewrite Hstep, (write_properties_frame _ _ _ _ Hprops Hmeta).
    destruct (Dict.get d "properties"); [reflexivity|].
    destruct p; [discriminate Hcells | reflexivity].
  - rewrite (dict_get_set_other _ _ _ _ Hkey).
    destruct (String.eqb "name" key) eqn:Hname.
    + apply String.eqb_eq in Hname. subst key.
      unfold untouched, overwritten_paths in Hp. cbn [forallb] in Hp.
      apply andb_true_iff in Hp. destruct Hp as [Hp _].
      unfold apart in Hp. cbn [is_prefix] in Hp.
      rewrite String.eqb_refl, andb_false_r in Hp. discriminate Hp.
    + now rewrite (dict_get_set_other _ _ _ _ Hname).
Qed.

Lemma write_file_merge_ok (rt : Runtime) (fs fs' : filesystem) (dest text : string)
  (doc : pyval) (nb_data : NotebookData) :
  fs dest = Some text ->
  json_loads rt text = Some doc ->
  SynapseNotebookFormat.write_file rt fs dest nb_data = (Ok tt, fs') ->
  exists doc',
    fs' dest = Some (json_dumps rt doc') /\
    (forall other, String.eqb other dest = false -> fs' other = fs other) /\
    preserved doc doc'.
Proof.
  intros Hfs Hload. unfold SynapseNotebookFormat.write_file. rewrite Hfs, Hload.
  destruct (SynapseNotebookFormat.write_data doc nb_data) as [doc'|e] eqn:Hw;
    intros H; [|discriminate H].
  injection H as <-. exists doc'. unfold fs_write. split; [|split].
  - now rewrite String.eqb_refl.
  - intros other Hne. now rewrite Hne.
  - exact (write_data_frame _ _ _ Hw).
Qed.

Lemma write_file_failure_writes_nothing (rt : Runtime) (fs fs' : filesystem)
  (dest : string) (nb_data : NotebookData) (e : exn) :
  SynapseNotebookFormat.write_file rt fs dest nb_data = (Raise e, fs') -> fs' = fs.
Proof.
  unfold SynapseNotebookFormat.write_file.
  destruct (fs dest) as [text|]; [|now intros H; injection H].
  destruct (json_loads rt text) as [doc|]; [|now intros H; injection H].
  destruct (SynapseNotebookFormat.write_data doc nb_data); intros H;
    [discriminate H | now injection H].
Qed.

(** C7: when the destination document exists, a successful [write_file]
    replaces its text by the dump of a document that holds, at every path
    that lies apart from the top-level name, the cells path and the four
    recognized metadata paths, exactly what the existing document held
    there, and it changes no other file; a failed [write_file] writes
    nothing.  The same holds of [push_notebook], which ends in that
    [write_file]; in particular an unrecognized top-level field custom with
    value 1 is there, with value 1, after the push. *)
Theorem write_file_preserves_other_fields (rt : Runtime) (fs : filesystem)
  (dest text : string) (doc : pyval) :
  fs dest = Some text ->
  json_loads rt text = Some doc ->
  (forall nb_data fs',
      SynapseNotebookFormat.write_file rt fs dest nb_data = (Ok tt, fs') ->
      exists doc',
        fs' dest = Some (json_dumps rt doc') /\
        (forall other, String.eqb other dest = false -> fs' other = fs other) /\
        preserved doc doc') /\
  (forall nb_data e fs',
      SynapseNotebookFormat.write_file rt fs dest nb_data = (Raise e, fs') -> fs' = fs) /\
  (forall location src fs',
      to_abs_path rt src = dest ->
      push_notebook rt fs location src = (Ok tt, fs') ->
      exists doc',
        fs' dest = Some (json_dumps rt doc') /\
        preserved doc doc' /\
        (get_walk doc ["custom"] = Some (VInt 1) ->
         get_walk doc' ["custom"] = Some (VInt 1))).
Proof.
  intros Hfs Hload. split; [|split].
  - intros nb_data fs'. exact (write_file_merge_ok rt fs fs' dest text doc nb_data Hfs Hload).
  - intros nb_data e fs'. apply write_file_failure_writes_nothing.
  - intros location src fs' Hsrc. unfold push_notebook. rewrite Hsrc.
    destruct (negb (file_exists fs (to_abs_path rt location))); [discriminate|].
    destruct (ScratchpadNotebookFormat.read_file rt fs (to_abs_path rt location))
      as [nb_data|e]; [|discriminate].
    intros Hw.
    destruct (write_file_merge_ok rt fs fs' dest text doc nb_data Hfs Hload Hw)
      as [doc' [Hdest [_ Hframe]]].
    exists doc'. split; [exact Hdest|]. split; [exact Hframe|].
    intros Hcustom. now rewrite (Hframe ["custom"] eq_refl).
Qed.

Lemma write_file_preserves_other_fields_witness :
  Sample.disk "/nb.json" = Some "doc" /\
  json_loads Sample.rt "doc" = Some Sample.document /\
  fst (SynapseNotebookFormat.write_file Sample.rt Sample.disk "/nb.json" Sample.notebook)
  = Ok tt /\
  (forall nb_data fs',
      SynapseNotebookFormat.write_file Sample.rt Sample.disk "/nb.json" nb_data = (Ok tt, fs') ->
      exists doc',
        fs' "/nb.json" = Some (json_dumps Sample.rt doc') /\
        (forall other, String.eqb other "/nb.json" = false -> fs' other = Sample.disk other) /\
        preserved Sample.document doc').
Proof.
  split; [reflexivity|]. split; [reflexivity|]. split; [reflexivity|].
  apply (write_file_preserves_other_fields Sample.rt Sample.disk "/nb.json" "doc"
           Sample.document); reflexivity.
Defined.

(** ** The text format: reading *)

Section TextReader.

Import ScratchpadNotebookFormat.

Variable rt : Runtime.

Lemma update_at_length {A : Type} (f : A -> A) (l : list A) (i : nat) :
  List.length (update_at i f l) = List.length l.
Proof.
  revert i. induction l as [|a l IH]; intros [|i]; cbn [update_at List.length];
    try reflexivity.
  now rewrite IH.
Qed.

Lemma update_at_last {A : Type} (f : A -> A) (l : list A) (a : A) :
  update_at (List.length l) f (l ++ [a]) = (l ++ [f a])%list.
Proof.
  induction l as [|b l IH]; [reflexivity|].
  cbn [List.length app update_at]. now rewrite IH.
Qed.

Lemma append_line_tracks (st : reader) (line : string) :
  tracks_last st -> tracks_last (append_line st line).
Proof.
  unfold tracks_last, append_line.
  destruct (current_cell st) as [i|] eqn:E; [|now rewrite E].
  cbn [current_cell r_cells]. now rewrite update_at_length.
Qed.

Lemma read_line_tracks (st : reader) (line : string) :
  tracks_last st -> tracks_last (read_line rt st line).
Proof.
  intros H. unfold read_line.
  destruct (PyStr.startswith line "@"); [|now apply append_line_tracks].
  destruct (String.eqb (directive_of line) "cell").
  - unfold tracks_last, read_cell_line. cbn [current_cell r_cells].
    rewrite length_app. cbn [List.length]. lia.
  - destruct (String.eqb (directive_of line) "meta"); [|now apply append_line_tracks].
    unfold read_meta_line.
    destruct (String.eqb _ "name"); exact H.
Qed.

Lemma read_lines_tracks (lines : list string) (st : reader) :
  tracks_last st -> tracks_last (fold_left (read_line rt) lines st).
Proof.
  revert st. induction lines as [|line lines IH]; intros st H; [exact H|].
  cbn [fold_left]. apply IH, read_line_tracks, H.
Qed.

(** A line that starts with the at sign and names neither directive goes
    the way of a line of content. *)
Lemma read_line_other_directive (st : reader) (line : string) :
  directive_of line <> "cell" ->
  directive_of line <> "meta" ->
  read_line rt st line = append_line st line.
Proof.
  intros Hc Hm. unfold read_line.
  apply String.eqb_neq in Hc. apply String.eqb_neq in Hm.
  rewrite Hc, Hm. now destruct (PyStr.startswith line "@").
Qed.

End TextReader.

(** C6, as the specification words it, fails: in a text whose second line
    is the unknown directive foo, inside a code cell, that line becomes the
    first line of the cell's contents, so the notebook differs from the one
    read from the text without the line. *)
Lemma unknown_directive_is_kept :
  PyStr.startswith "@foo bar" "@" = true /\
  ScratchpadNotebookFormat.directive_of "@foo bar" = "foo" /\
  cells (ScratchpadNotebookFormat.read_text Sample.rt Sample.text_with_decorator)
  = [ {| cell_type := VStr "code";
         contents := "@foo bar" ++ str1 newline ++ Sample.x_line;
         attributes := VList [] |} ] /\
  cells (ScratchpadNotebookFormat.read_text Sample.rt Sample.text_without_decorator)
  = [ {| cell_type := VStr "code";
         contents := Sample.x_line;
         attributes := VList [] |} ] /\
  ScratchpadNotebookFormat.read_text Sample.rt Sample.text_with_decorator
  <> ScratchpadNotebookFormat.read_text Sample.rt Sample.text_without_decorator.
Proof.
  repeat split; try reflexivity. vm_compute. discriminate.
Qed.

(** C6, amended: a line that starts with the at sign and whose directive
    name is neither cell nor meta is read as a line of content.  With no
    cell open, that is, before the first cell directive, it is dropped: the
    notebook is the one read from the input without the line.  With a cell
    open, the line and a newline are appended to the contents of the cell
    opened last. *)
Theorem unknown_directive_is_content (rt : Runtime) (before after : list string)
  (line : string) :
  ScratchpadNotebookFormat.directive_of line <> "cell" ->
  ScratchpadNotebookFormat.directive_of line <> "meta" ->
  (cells (ScratchpadNotebookFormat.read_lines rt before) = [] ->
   ScratchpadNotebookFormat.read_lines rt (before ++ line :: after)
   = ScratchpadNotebookFormat.read_lines rt (before ++ after)) /\
  (forall earlier cell,
      cells (ScratchpadNotebookFormat.read_lines rt before) = (earlier ++ [cell])%list ->
      cells (ScratchpadNotebookFormat.read_lines rt (before ++ [line]))
      = (earlier ++ [ {| cell_type := cell_type cell;
                         contents := contents cell ++ line ++ str1 newline;
                         attributes := attributes cell |} ])%list).
Proof.
  intros Hc Hm. unfold ScratchpadNotebookFormat.read_lines. cbn [cells].
  pose proof (read_lines_tracks rt before ScratchpadNotebookFormat.start eq_refl) as Ht.
  rewrite !fold_left_app. cbn [fold_left].
  rewrite (read_line_other_directive rt _ line Hc Hm).
  set (st := fold_left (ScratchpadNotebookFormat.read_line rt) before
                       ScratchpadNotebookFormat.start) in *.
  unfold tracks_last in Ht. unfold ScratchpadNotebookFormat.append_line.
  destruct (ScratchpadNotebookFormat.current_cell st) as [i|] eqn:Hcur; split.
  - intros Hnil. rewrite Hnil in Ht. discriminate Ht.
  - intros earlier cell Hcells. cbn [ScratchpadNotebookFormat.r_cells].
    rewrite Hcells in *. rewrite length_app in Ht. cbn [List.length] in Ht.
    replace i with (List.length earlier) by lia.
    exact (update_at_last _ earlier cell).
  - reflexivity.
  - intros earlier cell Hcells. rewrite Ht in Hcells. now destruct earlier.
Qed.

Lemma unknown_directive_is_content_witness :
  ScratchpadNotebookFormat.directive_of "@foo bar" <> "cell" /\
  ScratchpadNotebookFormat.directive_of "@foo bar" <> "meta" /\
  (cells (ScratchpadNotebookFormat.read_lines Sample.rt ["@meta nbformat 4"]) = [] ->
   ScratchpadNotebookFormat.read_lines Sample.rt
     (["@meta nbformat 4"] ++ "@foo bar" :: ["@cell code"])
   = ScratchpadNotebookFormat.read_lines Sample.rt (["@meta nbformat 4"] ++ ["@cell code"])).
Proof.
  split; [vm_compute; discriminate|]. split; [vm_compute; discriminate|].
  apply (unknown_directive_is_content Sample.rt ["@meta nbformat 4"] ["@cell code"] "@foo bar");
    vm_compute; discriminate.
Defined.

(** ** Document to text and back *)

Lemma pull_sample (rt : Runtime) (fs : filesystem) (location src text : string) :
  fs (to_abs_path rt src) = Some text ->
  json_loads rt text = Some Sample.document ->
  pull_notebook rt fs location src
  = (Ok tt, fs_write fs (to_abs_path rt location) Sample.pulled_text).
Proof.
  intros Hfs Hload. unfold pull_notebook, file_exists.
  unfold SynapseNotebookFormat.read_file. rewrite Hfs, Hload. reflexivity.
Qed.

Lemma push_sample (rt : Runtime) (fs : filesystem) (location src text : string) :
  fs (to_abs_path rt location) = Some Sample.pulled_text ->
  fs (to_abs_path rt src) = Some text ->
  json_loads rt text = Some Sample.document ->
  push_notebook rt fs location src
  = (Ok tt, fs_write fs (to_abs_path rt src) (json_dumps rt Sample.pushed_document)).
Proof.
  intros Hloc Hfs Hload. unfold push_notebook, file_exists.
  unfold ScratchpadNotebookFormat.read_file. rewrite Hloc. cbn [negb].
  unfold SynapseNotebookFormat.write_file. rewrite Hfs, Hload. reflexivity.
Qed.

(** Whatever cell the document writer builds, the document reader finds
    no tag in it: the writer never makes the metadata entry that the reader
    looks into. *)
Lemma written_cell_reads_untagged (cell : NotebookCellData) (cell_data : pyval) :
  SynapseNotebookFormat.write_cell cell = Ok cell_data ->
  exists content,
    SynapseNotebookFormat.read_cell cell_data
    = Ok {| cell_type := cell_type cell; contents := content; attributes := VList [] |}.
Proof.
  unfold SynapseNotebookFormat.write_cell.
  destruct (Py.len (attributes cell)) as [n|e]; [|discriminate].
  cbn [bind]. intros H. injection H as <-.
  unfold SynapseNotebookFormat.read_cell, SynapseNotebookFormat.cell_content.
  destruct (0 <? n)%nat; cbn -[PyStr.split PyStr.rstrip for_each];
    rewrite <- (map_map (fun line => line ++ str1 newline) VStr), source_lines_ok;
    cbn [bind]; eexists; reflexivity.
Qed.

(** C1, on the code: for the sample document, which has the four
    recognized keys set and one cell tagged t, [pull_notebook] followed by
    [push_notebook] succeeds and leaves a document in which the reader
    finds no tag: the reader takes tags from the cell's metadata, the
    writer stores them as an entry of the cell itself.  The tags are not
    reproduced; indeed no cell that the writer builds is read back with a
    tag. *)
Theorem pull_then_push_loses_tags (rt : Runtime) (fs : filesystem)
  (location src text : string) :
  to_abs_path rt location <> to_abs_path rt src ->
  fs (to_abs_path rt src) = Some text ->
  json_loads rt text = Some Sample.document ->
  exists fs1 fs2,
    pull_notebook rt fs location src = (Ok tt, fs1) /\
    push_notebook rt fs1 location src = (Ok tt, fs2) /\
    fs2 (to_abs_path rt src) = Some (json_dumps rt Sample.pushed_document) /\
    tags_read Sample.document = Ok [VList [VStr "t"]] /\
    tags_read Sample.pushed_document = Ok [VList []] /\
    (forall cell cell_data,
        SynapseNotebookFormat.write_cell cell = Ok cell_data ->
        exists content,
          SynapseNotebookFormat.read_cell cell_data
          = Ok {| cell_type := cell_type cell; contents := content;
                  attributes := VList [] |}).
Proof.
  intros Hne Hfs Hload.
  exists (fs_write fs (to_abs_path rt location) Sample.pulled_text).
  exists (fs_write (fs_write fs (to_abs_path rt location) Sample.pulled_text)
            (to_abs_path rt src) (json_dumps rt Sample.pushed_document)).
  split; [exact (pull_sample rt fs location src text Hfs Hload)|].
  split.
  - apply (push_sample rt _ location src text).
    + unfold fs_write. now rewrite String.eqb_refl.
    + unfold fs_write.
      assert (E : String.eqb (to_abs_path rt src) (to_abs_path rt location) = false)
        by (apply String.eqb_neq; congruence).
      now rewrite E.
    + exact Hload.
  - split; [|split; [reflexivity | split; [reflexivity|]]].
    + unfold fs_write. now rewrite String.eqb_refl.
    + exact written_cell_reads_untagged.
Qed.

Lemma pull_then_push_loses_tags_witness :
  to_abs_path Sample.rt "nb.txt" <> to_abs_path Sample.rt "nb.json" /\
  Sample.disk (to_abs_path Sample.rt "nb.json") = Some "doc" /\
  json_loads Sample.rt "doc" = Some Sample.document /\
  exists fs1 fs2,
    pull_notebook Sample.rt Sample.disk "nb.txt" "nb.json" = (Ok tt, fs1) /\
    push_notebook Sample.rt fs1 "nb.txt" "nb.json" = (Ok tt, fs2) /\
    fs2 (to_abs_path Sample.rt "nb.json")
    = Some (json_dumps Sample.rt Sample.pushed_document) /\
    tags_read Sample.document = Ok [VList [VStr "t"]] /\
    tags_read Sample.pushed_document = Ok [VList []] /\
    (forall cell cell_data,
        SynapseNotebookFormat.write_cell cell = Ok cell_data ->
        exists content,
          SynapseNotebookFormat.read_cell cell_data
          = Ok {| cell_type := cell_type cell; contents := content;
                  attributes := VList [] |}).
Proof.
  split; [vm_compute; discriminate|]. split; [reflexivity|]. split; [reflexivity|].
  apply (pull_then_push_loses_tags Sample.rt Sample.disk "nb.txt" "nb.json" "doc");
    [vm_compute; discriminate | reflexivity | reflexivity].
Defined.

(** * Further properties of the code *)

(** ** The property path accessor *)

Lemma set_walk_get (path_parts : list string) :
  forall obj obj' value,
    set_walk obj path_parts value = Ok obj' ->
    get_walk obj' path_parts = Some value.
Proof.
  induction path_parts as [|part rest IH]; intros obj obj' value Hset;
    [discriminate Hset|].
  destruct rest as [|next rest].
  - cbn [set_walk] in Hset. destruct obj as [| | | | | |d]; try discriminate Hset.
    cbn [Py.setitem] in Hset. injection Hset as <-.
    cbn [get_walk]. now rewrite dict_get_set_same.
  - rewrite set_walk_step in Hset.
    destruct obj as [| | | | | |d]; try discriminate Hset.
    cbn [bind Py.getitem] in Hset.
    destruct (Dict.get d part) as [child|]; [|discriminate Hset].
    cbn [bind] in Hset.
    destruct (set_walk child (next :: rest) value) as [child'|e] eqn:Hrec;
      [|discriminate Hset].
    cbn [bind Py.setitem] in Hset. injection Hset as <-.
    cbn [get_walk]. rewrite dict_get_set_same. exact (IH _ _ _ Hrec).
Qed.

(** The walk of [set_property_value] succeeds exactly when every segment
    but the last leads to a map that is already there. *)
Lemma set_walk_succeeds_iff (path_parts : list string) :
  path_parts <> [] ->
  forall obj value,
    (exists obj', set_walk obj path_parts value = Ok obj') <->
    (exists d, get_walk obj (removelast path_parts) = Some (VDict d)).
Proof.
  induction path_parts as [|part rest IH]; intros Hne obj value; [now elim Hne|].
  destruct rest as [|next rest].
  - cbn [set_walk removelast get_walk].
    destruct obj as [| | | | | |d]; cbn [Py.setitem];
      (split; intros [x H]; [try discriminate H | try discriminate H]).
    + now exists d.
    + now eexists.
  - rewrite set_walk_step.
    change (removelast (part :: next :: rest)) with (part :: removelast (next :: rest)).
    cbn [get_walk].
    destruct obj as [| | | | | |d]; cbn [Py.setitem bind Py.getitem];
      try (split; intros [x H]; discriminate H).
    destruct (Dict.get d part) as [child|]; cbn [bind];
      [|split; intros [x H]; discriminate H].
    rewrite <- (IH ltac:(discriminate) child value).
    split; intros [x H].
    + destruct (set_walk child (next :: rest) value) as [child'|e];
        [now exists child' | discriminate H].
    + rewrite H. cbn [bind Py.setitem]. now eexists.
Qed.

(** X1: what [set_property_value] has stored, [get_property_by_path] reads
    back at the same path when it is an int, a float or a string; any other
    stored value (a list, a map, a bool, None) is read back as None. *)
Theorem get_after_set (obj obj' : pyval) (path : string) (value : pyval) :
  set_property_value obj path value = Ok obj' ->
  get_property_by_path obj' path = if is_scalar value then value else VNone.
Proof.
  unfold set_property_value, get_property_by_path. intros H.
  now rewrite (set_walk_get _ _ _ _ H).
Qed.

Lemma get_after_set_witness :
  set_property_value (VDict [("a", VDict [])]) "a.b" (VInt 7)
  = Ok (VDict [("a", VDict [("b", VInt 7)])]) /\
  get_property_by_path (VDict [("a", VDict [("b", VInt 7)])]) "a.b"
  = if is_scalar (VInt 7) then VInt 7 else VNone.
Proof.
  split; [reflexivity|].
  apply (get_after_set (VDict [("a", VDict [])]) _ "a.b" (VInt 7)). reflexivity.
Defined.

(** X2: [set_property_value] succeeds exactly when walking all segments of
    the path but the last, from the tree, goes through maps only and ends
    on a map; it creates no intermediate map. *)
Theorem set_property_value_succeeds_iff (obj : pyval) (path : string) (value : pyval) :
  (exists obj', set_property_value obj path value = Ok obj') <->
  (exists d, get_walk obj (removelast (PyStr.split "." path)) = Some (VDict d)).
Proof.
  unfold set_property_value. apply set_walk_succeeds_iff.
  destruct path as [|c path]; [discriminate|].
  cbn [PyStr.split]. destruct (Ascii.eqb c "."); [discriminate|].
  destruct (PyStr.split "." path); discriminate.
Qed.

(** X3: a successful [set_property_value] changes nothing that
    [get_property_by_path] reads at a path lying apart from the assigned
    one (neither path a prefix of the other). *)
Theorem get_apart_from_set (obj obj' : pyval) (path other : string) (value : pyval) :
  set_property_value obj path value = Ok obj' ->
  apart (PyStr.split "." other) (PyStr.split "." path) = true ->
  get_property_by_path obj' other = get_property_by_path obj other.
Proof.
  unfold set_property_value, get_property_by_path. intros Hset Hp.
  now rewrite (set_walk_frame _ _ _ _ _ Hset Hp).
Qed.

Lemma get_apart_from_set_witness :
  set_property_value (VDict [("a", VDict []); ("c", VInt 1)]) "a.b" (VInt 7)
  = Ok (VDict [("a", VDict [("b", VInt 7)]); ("c", VInt 1)]) /\
  apart (PyStr.split "." "c") (PyStr.split "." "a.b") = true /\
  get_property_by_path (VDict [("a", VDict [("b", VInt 7)]); ("c", VInt 1)]) "c"
  = get_property_by_path (VDict [("a", VDict []); ("c", VInt 1)]) "c".
Proof.
  split; [reflexivity|]. split; [reflexivity|].
  apply (get_apart_from_set (VDict [("a", VDict []); ("c", VInt 1)]) _ "a.b" "c" (VInt 7));
    reflexivity.
Defined.

(** ** The scalar literal codec, beyond the plain strings *)

Lemma prefix_empty (s : string) : String.prefix EmptyString s = true.
Proof. now destruct s. Qed.

Lemma prefix_cons (c a : ascii) (p s : string) :
  String.prefix (String c p) (String a s) = Ascii.eqb c a && String.prefix p s.
Proof.
  cbn [String.prefix]. destruct (ascii_dec c a) as [->|Hne].
  - now rewrite Ascii.eqb_refl.
  - apply Ascii.eqb_neq in Hne. now rewrite Hne.
Qed.

Lemma prefix_single (c a : ascii) (s : string) :
  String.prefix (str1 c) (String a s) = Ascii.eqb c a.
Proof. unfold str1. now rewrite prefix_cons, prefix_empty, andb_true_r. Qed.

(** [replace] of a one-character pattern, one character at a time. *)
Lemma replace_single_cons (c a : ascii) (new s : string) :
  PyStr.replace (String a s) (str1 c) new
  = if Ascii.eqb c a
    then new ++ PyStr.replace s (str1 c) new
    else String a (PyStr.replace s (str1 c) new).
Proof.
  unfold PyStr.replace. cbn [PyStr.replace_from].
  now rewrite (prefix_single c a s).
Qed.

Lemma in_chars_append (a b : string) (c : ascii) :
  PyStr.in_chars (a ++ b) c = PyStr.in_chars a c || PyStr.in_chars b c.
Proof.
  induction a as [|x a IH]; [reflexivity|].
  cbn [append PyStr.in_chars]. now rewrite IH, orb_assoc.
Qed.

(** Doubling the backslashes brings in no quote. *)
Lemma doubling_keeps_quote_free (s : string) :
  PyStr.in_chars s dquote = false ->
  PyStr.in_chars (PyStr.replace s (str1 backslash) (String backslash (str1 backslash)))
                 dquote = false.
Proof.
  induction s as [|a s IH]; [reflexivity|].
  cbn [PyStr.in_chars]. intros H. apply orb_false_elim in H. destruct H as [Ha Hs].
  rewrite replace_single_cons. destruct (Ascii.eqb backslash a).
  - rewrite in_chars_append. now rewrite (IH Hs).
  - cbn [PyStr.in_chars]. now rewrite Ha, (IH Hs).
Qed.

Lemma replace_from_cons (old new : string) (c : ascii) (rest : string) :
  PyStr.replace_from old new 0 (String c rest)
  = if String.prefix old (String c rest)
    then new ++ PyStr.replace_from old new (String.length old - 1) rest
    else String c (PyStr.replace_from old new 0 rest).
Proof. reflexivity. Qed.

Lemma replace_from_skip (old new : string) (k : nat) (c : ascii) (rest : string) :
  PyStr.replace_from old new (S k) (String c rest) = PyStr.replace_from old new k rest.
Proof. reflexivity. Qed.

(** Making each doubled backslash single undoes the doubling. *)
Lemma undoubling_doubled (s : string) :
  PyStr.replace (PyStr.replace s (str1 backslash) (String backslash (str1 backslash)))
                (String backslash (str1 backslash)) (str1 backslash)
  = s.
Proof.
  induction s as [|a s IH]; [reflexivity|].
  rewrite replace_single_cons. unfold PyStr.replace in *.
  destruct (Ascii.eqb backslash a) eqn:Ha.
  - apply Ascii.eqb_eq in Ha. subst a.
    change (String backslash (str1 backslash) ++ ?x)
      with (String backslash (String backslash x)).
    rewrite replace_from_cons, prefix_cons, prefix_single, !Ascii.eqb_refl.
    cbn [andb]. change (String.length (String backslash (str1 backslash)) - 1) with 1.
    rewrite replace_from_skip, IH. reflexivity.
  - rewrite replace_from_cons, prefix_cons, Ha. cbn [andb]. now rewrite IH.
Qed.

(** X4: decoding the encoding of a string gives the string back whenever
    the string holds no double quote, backslashes included: the doubling
    that [value_str] does is undone by [parse_value]. *)
Theorem parse_value_value_str_backslashes (rt : Runtime) (s : string) :
  PyStr.in_chars s dquote = false ->
  parse_value rt (value_str rt (VStr s)) = VStr s.
Proof.
  intros Hq. unfold value_str.
  pose proof (doubling_keeps_quote_free s Hq) as Hd.
  rewrite (replace_absent dquote EmptyString _ _ Hd).
  change (str1 dquote ++ ?b ++ str1 dquote) with (String dquote (b ++ str1 dquote)).
  rewrite (parse_value_quoted_body rt _ Hd). now rewrite undoubling_doubled.
Qed.

Lemma parse_value_value_str_backslashes_witness :
  PyStr.in_chars "C:\dir\\x" dquote = false /\
  parse_value Sample.rt (value_str Sample.rt (VStr "C:\dir\\x")) = VStr "C:\dir\\x".
Proof.
  split; [reflexivity|].
  apply (parse_value_value_str_backslashes Sample.rt "C:\dir\\x"). reflexivity.
Defined.

Section IntegerLiterals.

Import Decimal.















End IntegerLiterals.


(** ** The document format, read and written *)

Lemma get_property_none_or_scalar (o : pyval) (path : string) :
  get_property_by_path o path = VNone \/ is_scalar (get_property_by_path o path) = true.
Proof.
  unfold get_property_by_path.
  destruct (get_walk o (PyStr.split "." path)) as [value|]; [|now left].
  destruct (is_scalar value) eqn:E; [now right | now left].
Qed.

Lemma for_each_pointwise {A B : Type} (f : A -> result B) (l : list A) (l' : list B) :
  for_each f l = Ok l' -> Forall2 (fun a b => f a = Ok b) l l'.
Proof.
  revert l'. induction l as [|a l IH]; intros l' H; cbn [for_each] in H.
  - injection H as <-. constructor.
  - destruct (f a) as [b|e] eqn:Hb; [|discriminate H]. cbn [bind] in H.
    destruct (for_each f l) as [bs|e]; [|discriminate H]. cbn [bind] in H.
    injection H as <-. constructor; [exact Hb | now apply IH].
Qed.

Lemma for_each_map {A B : Type} (f : A -> result B) (g : A -> B) (l : list A) :
  (forall a, In a l -> f a = Ok (g a)) -> for_each f l = Ok (map g l).
Proof.
  induction l as [|a l IH]; intros H; [reflexivity|].
  cbn [for_each map]. rewrite (H a (or_introl eq_refl)). cbn [bind].
  rewrite IH; [reflexivity|]. intros b Hb. apply H. now right.
Qed.

(** X6: a notebook that the document reader returns has exactly the four
    recognized property keys, in the order of the table, each with a value
    that is None, an int, a float or a string; its name is the document's
    top-level name, or None without one; and it has one cell per entry of
    the cells list, in order. *)
Theorem read_data_shape (file_data : pyval) (nb : NotebookData) :
  SynapseNotebookFormat.read_data file_data = Ok nb ->
  Dict.keys (properties nb) = ["folder"; "nbformat"; "nbformat_minor"; "language"] /\
  (forall key value,
      In (key, value) (properties nb) -> value = VNone \/ is_scalar value = true) /\
  Py.get file_data "name" = Ok (name nb) /\
  exists properties_obj cells_obj entries,
    Py.get file_data "properties" = Ok properties_obj /\
    Py.get properties_obj "cells" = Ok cells_obj /\
    Py.iter cells_obj = Ok entries /\
    Forall2 (fun entry cell => SynapseNotebookFormat.read_cell entry = Ok cell)
            entries (cells nb).
Proof.
  unfold SynapseNotebookFormat.read_data. intros H.
  destruct (Py.get file_data "name") as [nm|e]; [|discriminate H]. cbn [bind] in H.
  destruct (Py.get file_data "properties") as [properties_obj|e]; [|discriminate H].
  cbn [bind] in H.
  destruct (Py.get properties_obj "cells") as [cells_obj|e] eqn:Hcells;
    [|discriminate H].
  cbn [bind] in H.
  destruct (Py.iter cells_obj) as [entries|e] eqn:Hiter; [|discriminate H].
  cbn [bind] in H.
  destruct (for_each SynapseNotebookFormat.read_cell entries) as [cs|e] eqn:Hcs;
    [|discriminate H].
  cbn [bind] in H. injection H as <-. cbn [properties name cells].
  split; [reflexivity|]. split; [|split; [reflexivity|]].
  - intros key value Hin. cbn in Hin.
    destruct Hin as [Hin|[Hin|[Hin|[Hin|[]]]]]; injection Hin as _ <-;
      apply get_property_none_or_scalar.
  - exists properties_obj, cells_obj, entries.
    split; [reflexivity|]. split; [exact Hcells|]. split; [exact Hiter|].
    now apply for_each_pointwise.
Qed.

Lemma read_data_shape_witness :
  SynapseNotebookFormat.read_data Sample.document
  = Ok {| name := VStr "nb";
          properties := [ ("folder", VStr "f"); ("nbformat", VInt 4);
                          ("nbformat_minor", VInt 2); ("language", VStr "python") ];
          cells := [ {| cell_type := VStr "code"; contents := Sample.x_line;
                        attributes := VList [VStr "t"] |} ] |} /\
  Dict.keys [ ("folder", VStr "f"); ("nbformat", VInt 4);
              ("nbformat_minor", VInt 2); ("language", VStr "python") ]
  = ["folder"; "nbformat"; "nbformat_minor"; "language"].
Proof.
  split; [reflexivity|].
  exact (proj1 (read_data_shape Sample.document _ eq_refl)).
Defined.

(** The pieces of [split] hold no separator. *)
Lemma split_pieces_free (c : ascii) (s piece : string) :
  In piece (PyStr.split c s) -> PyStr.in_chars piece c = false.
Proof.
  revert piece. induction s as [|a s IH]; intros piece; cbn [PyStr.split].
  - intros [<-|[]]. reflexivity.
  - destruct (Ascii.eqb a c) eqn:Ha.
    + intros [<-|Hin]; [reflexivity | now apply IH].
    + destruct (PyStr.split c s) as [|first more] eqn:Hs.
      * intros [<-|[]]. cbn. now rewrite Ascii.eqb_sym, Ha.
      * intros [<-|Hin].
        -- cbn [PyStr.in_chars]. rewrite Ascii.eqb_sym, Ha. apply IH. now left.
        -- apply IH. now right.
Qed.

Lemma split_nonempty (c : ascii) (s : string) : PyStr.split c s <> [].
Proof.
  destruct s as [|a s]; cbn [PyStr.split]; [discriminate|].
  destruct (Ascii.eqb a c); [discriminate|].
  destruct (PyStr.split c s); discriminate.
Qed.

(** Putting the separator back after every piece of [split] gives the text
    and one separator. *)
Lemma split_concat (c : ascii) (s : string) :
  String.concat EmptyString (map (fun piece => piece ++ str1 c) (PyStr.split c s))
  = s ++ str1 c.
Proof.
  induction s as [|a s IH]; [reflexivity|]. cbn [PyStr.split].
  destruct (Ascii.eqb a c) eqn:Ha.
  - apply Ascii.eqb_eq in Ha. subst a.
    cbn [map]. rewrite concat_empty_cons, IH. reflexivity.
  - destruct (PyStr.split c s) as [|first more] eqn:Hs;
      [now elim (split_nonempty c s)|].
    cbn [map] in *. rewrite concat_empty_cons in *. cbn [append]. now rewrite IH.
Qed.

(** The contents the document writer stores for a cell. *)
Lemma written_then_read_cell (cell : NotebookCellData) (cell_data : pyval) :
  SynapseNotebookFormat.write_cell cell = Ok cell_data ->
  SynapseNotebookFormat.read_cell cell_data
  = Ok {| cell_type := cell_type cell;
          contents :=
            PyStr.rstrip (PyStr.in_chars (String space (String newline (String tab (str1 cr)))))
                         (contents cell) ++ str1 newline;
          attributes := VList [] |}.
Proof.
  unfold SynapseNotebookFormat.write_cell.
  destruct (Py.len (attributes cell)) as [n|e]; [|discriminate].
  cbn [bind]. intros H. injection H as <-.
  set (text := PyStr.rstrip _ (contents cell)).
  assert (Hc : SynapseNotebookFormat.cell_content
                 (VList (map (fun line => VStr (line ++ str1 newline))
                             (PyStr.split newline text)))
               = Ok (text ++ str1 newline)).
  { unfold SynapseNotebookFormat.cell_content. cbn [Py.iter bind].
    rewrite (for_each_map _ (fun v => match v with VStr s => s | _ => EmptyString end)).
    - cbn [bind]. unfold PyStr.join. rewrite map_map. cbn beta iota.
      now rewrite split_concat.
    - intros v Hin. apply in_map_iff in Hin. destruct Hin as [line [<- Hline]].
      cbn [SynapseNotebookFormat.source_line].
      rewrite rstrip_append_stripped by reflexivity.
      now rewrite (rstrip_absent newline line (split_pieces_free _ _ _ Hline)). }
  unfold SynapseNotebookFormat.read_cell.
  destruct (0 <? n)%nat; cbn -[SynapseNotebookFormat.cell_content PyStr.split PyStr.rstrip];
    fold text; rewrite Hc; reflexivity.
Qed.

(** X7: a document that [write_file] has built is read back by the
    document reader without error, with the notebook's name, and with one
    cell per cell of the notebook, in order: each has the cell's type, the
    cell's contents right-trimmed of spaces, tabs, newlines and carriage
    returns and ended by one newline, and no tag. *)
Theorem read_after_write (file_data file_data' : pyval) (nb_data : NotebookData) :
  SynapseNotebookFormat.write_data file_data nb_data = Ok file_data' ->
  exists props,
    SynapseNotebookFormat.read_data file_data'
    = Ok {| name := name nb_data;
            properties := props;
            cells :=
              map (fun cell =>
                     {| cell_type := cell_type cell;
                        contents :=
                          PyStr.rstrip
                            (PyStr.in_chars
                               (String space (String newline (String tab (str1 cr)))))
                            (contents cell) ++ str1 newline;
                        attributes := VList [] |})
                  (cells nb_data) |}.
Proof.
  unfold SynapseNotebookFormat.write_data, set_property_value.
  change (PyStr.split "." "name") with ["name"].
  change (PyStr.split "." "cells") with ["cells"].
  change (PyStr.split "." "properties") with ["properties"].
  cbn [set_walk]. intros Hw.
  destruct file_data as [| | | | | |d]; try discriminate Hw.
  cbn [Py.setitem bind Py.get_default] in Hw.
  destruct (SynapseNotebookFormat.write_properties _ (properties nb_data))
    as [props1|e]; [|discriminate Hw].
  cbn [bind] in Hw.
  destruct (for_each SynapseNotebookFormat.write_cell (cells nb_data)) as [cs|e] eqn:Hcs;
    [|discriminate Hw].
  cbn [bind] in Hw.
  destruct props1 as [| | | | | |d1]; try discriminate Hw.
  cbn [Py.setitem bind] in Hw. injection Hw as <-.
  unfold SynapseNotebookFormat.read_data, Py.get. cbn [Py.get_default bind].
  rewrite (dict_get_set_other _ "properties" "name") by reflexivity.
  rewrite !dict_get_set_same. cbn [Py.get_default bind].
  rewrite dict_get_set_same. cbn [Py.iter bind].
  assert (Hread : for_each SynapseNotebookFormat.read_cell cs
                  = Ok (map (fun cell =>
                               {| cell_type := cell_type cell;
                                  contents :=
                                    PyStr.rstrip
                                      (PyStr.in_chars
                                         (String space
                                            (String newline (String tab (str1 cr)))))
                                      (contents cell) ++ str1 newline;
                                  attributes := VList [] |})
                            (cells nb_data))).
  { clear -Hcs. revert cs Hcs.
    induction (cells nb_data) as [|cell rest IH]; intros cs Hcs; cbn [for_each] in Hcs.
    - now injection Hcs as <-.
    - destruct (SynapseNotebookFormat.write_cell cell) as [cell_data|e] eqn:Hcell;
        [|discriminate Hcs].
      cbn [bind] in Hcs.
      destruct (for_each SynapseNotebookFormat.write_cell rest) as [more|e];
        [|discriminate Hcs].
      cbn [bind] in Hcs. injection Hcs as <-.
      cbn [for_each map]. rewrite (written_then_read_cell cell cell_data Hcell).
      cbn [bind]. now rewrite (IH more eq_refl). }
  rewrite Hread. cbn [bind]. eexists. reflexivity.
Qed.

Lemma read_after_write_witness :
  fst (SynapseNotebookFormat.write_file Sample.rt Sample.disk "/nb.json" Sample.notebook)
  = Ok tt /\
  exists file_data' props,
    SynapseNotebookFormat.write_data Sample.document Sample.notebook = Ok file_data' /\
    SynapseNotebookFormat.read_data file_data'
    = Ok {| name := name Sample.notebook;
            properties := props;
            cells :=
              map (fun cell =>
                     {| cell_type := cell_type cell;
                        contents :=
                          PyStr.rstrip
                            (PyStr.in_chars
                               (String space (String newline (String tab (str1 cr)))))
                            (contents cell) ++ str1 newline;
                        attributes := VList [] |})
                  (cells Sample.notebook) |}.
Proof.
  split; [reflexivity|].
  destruct (SynapseNotebookFormat.write_data Sample.document Sample.notebook)
    as [file_data'|e] eqn:Hw; [|discriminate Hw].
  exists file_data'.
  destruct (read_after_write Sample.document file_data' Sample.notebook Hw) as [props Hr].
  exists props. split; [reflexivity | exact Hr].
Defined.

(** X8: the entry [write_file] builds for a cell holds the cell's type,
    an execution count of 0, and at least one source line, even for empty
    contents; every source line is a piece without newline followed by one
    newline; the tags entry is there, with the cell's attributes, exactly
    when the attributes are not empty. *)
Theorem write_cell_shape (cell : NotebookCellData) (cell_data : pyval) :
  SynapseNotebookFormat.write_cell cell = Ok cell_data ->
  Py.getitem cell_data "cell_type" = Ok (cell_type cell) /\
  Py.getitem cell_data "execution_count" = Ok (VInt 0) /\
  (exists lines,
      lines <> [] /\
      Py.getitem cell_data "source"
      = Ok (VList (map (fun line => VStr (line ++ str1 newline)) lines)) /\
      forall line, In line lines -> PyStr.in_chars line newline = false) /\
  (forall n,
      Py.len (attributes cell) = Ok n ->
      Py.getitem cell_data "tags"
      = if (0 <? n)%nat then Ok (attributes cell) else Raise (KeyError "tags")).
Proof.
  unfold SynapseNotebookFormat.write_cell.
  destruct (Py.len (attributes cell)) as [n|e]; [|discriminate].
  cbn [bind]. intros H. injection H as <-.
  set (text := PyStr.rstrip _ (contents cell)).
  split; [|split; [|split]].
  - now destruct (0 <? n)%nat.
  - now destruct (0 <? n)%nat.
  - exists (PyStr.split newline text). split; [apply split_nonempty|].
    split; [now destruct (0 <? n)%nat | apply split_pieces_free].
  - intros m Hm. injection Hm as <-. now destruct (0 <? n)%nat.
Qed.

Lemma write_cell_shape_witness :
  SynapseNotebookFormat.write_cell
    {| cell_type := VStr "code"; contents := EmptyString; attributes := VList [] |}
  = Ok (VDict [ ("cell_type", VStr "code");
                ("source", VList [VStr (str1 newline)]);
                ("execution_count", VInt 0) ]) /\
  Py.getitem (VDict [ ("cell_type", VStr "code");
                      ("source", VList [VStr (str1 newline)]);
                      ("execution_count", VInt 0) ]) "execution_count"
  = Ok (VInt 0).
Proof.
  split; [reflexivity|].
  exact (proj1 (proj2 (write_cell_shape
                         {| cell_type := VStr "code"; contents := EmptyString;
                            attributes := VList [] |} _ eq_refl))).
Defined.

(** ** The text format: what the reader builds *)

Section TextReaderShape.

Import ScratchpadNotebookFormat.

Variable rt : Runtime.

Lemma read_line_cell (st : reader) (line : string) :
  is_cell_line line = true ->
  r_cells (read_line rt st line) = (r_cells st ++ [opened_cell line])%list /\
  current_cell (read_line rt st line) = Some (List.length (r_cells st)).
Proof.
  unfold is_cell_line, read_line. intros H. apply andb_true_iff in H.
  destruct H as [Hat Hcell]. rewrite Hat, Hcell. split; reflexivity.
Qed.

(** A line that opens no cell leaves the number, the types and the
    attributes of the cells alone. *)
Lemma read_line_keeps_headers (st : reader) (line : string) :
  is_cell_line line = false ->
  map (fun c => (cell_type c, attributes c)) (r_cells (read_line rt st line))
  = map (fun c => (cell_type c, attributes c)) (r_cells st).
Proof.
  unfold is_cell_line, read_line. intros H.
  assert (Happ : map (fun c => (cell_type c, attributes c)) (r_cells (append_line st line))
                 = map (fun c => (cell_type c, attributes c)) (r_cells st)).
  { unfold append_line. destruct (current_cell st) as [i|]; [|reflexivity].
    cbn [r_cells]. generalize (r_cells st). clear. intros l. revert i.
    induction l as [|c l IH]; intros [|i]; cbn [update_at map]; try reflexivity.
    now rewrite IH. }
  destruct (PyStr.startswith line "@"); [|exact Happ]. cbn [andb] in H. rewrite H.
  destruct (String.eqb (directive_of line) "meta"); [|exact Happ].
  unfold read_meta_line. now destruct (String.eqb _ "name").
Qed.

Lemma read_lines_headers (lines : list string) (st : reader) :
  map (fun c => (cell_type c, attributes c)) (r_cells (fold_left (read_line rt) lines st))
  = (map (fun c => (cell_type c, attributes c)) (r_cells st)
     ++ map (fun line => (cell_type (opened_cell line), attributes (opened_cell line)))
            (filter is_cell_line lines))%list.
Proof.
  revert st. induction lines as [|line lines IH]; intros st; cbn [fold_left filter].
  - now rewrite app_nil_r.
  - rewrite IH. destruct (is_cell_line line) eqn:Hline.
    + destruct (read_line_cell st line Hline) as [Hcells _]. rewrite Hcells.
      rewrite map_app. cbn [map]. now rewrite <- app_assoc.
    + now rewrite (read_line_keeps_headers st line Hline).
Qed.

End TextReaderShape.

(** X9: the text reader makes one cell per cell line (a line that starts
    with the at sign and whose directive name is cell, in any letter case),
    in the order of these lines; the type and the tags of each cell come
    from its cell line alone, whatever lines stand between. *)
Theorem cells_follow_cell_lines (rt : Runtime) (lines : list string) :
  map (fun c => (cell_type c, attributes c))
      (cells (ScratchpadNotebookFormat.read_lines rt lines))
  = map (fun line => (cell_type (opened_cell line), attributes (opened_cell line)))
        (filter is_cell_line lines) /\
  List.length (cells (ScratchpadNotebookFormat.read_lines rt lines))
  = List.length (filter is_cell_line lines).
Proof.
  assert (H := read_lines_headers rt lines ScratchpadNotebookFormat.start).
  unfold ScratchpadNotebookFormat.read_lines. cbn [cells].
  cbn [ScratchpadNotebookFormat.r_cells ScratchpadNotebookFormat.start map app] in H.
  split; [exact H|].
  apply (f_equal (@List.length _)) in H. now rewrite !length_map in H.
Qed.

(** ** Stripping *)

Section Stripping.

Import PyStr.

Variable p : ascii -> bool.

Lemma lstrip_head (s : string) :
  match lstrip p s with
  | EmptyString => True
  | String c _ => p c = false
  end.
Proof.
  induction s as [|c s IH]; cbn [lstrip]; [exact I|].
  destruct (p c) eqn:Hc; [exact IH | exact Hc].
Qed.

Lemma rstrip_idempotent (s : string) : rstrip p (rstrip p s) = rstrip p s.
Proof.
  induction s as [|c s IH]; [reflexivity|]. cbn [rstrip].
  destruct (rstrip p s) as [|d kept] eqn:E.
  - destruct (p c) eqn:Hc; [reflexivity|]. cbn [rstrip str1]. now rewrite Hc.
  - cbn [rstrip]. cbn [rstrip] in IH. now rewrite IH.
Qed.

(** [rstrip] keeps the first character of what it keeps. *)
Lemma rstrip_head (c : ascii) (s : string) :
  rstrip p (String c s) = EmptyString \/ exists kept, rstrip p (String c s) = String c kept.
Proof.
  cbn [rstrip]. destruct (rstrip p s) as [|d kept].
  - destruct (p c); [now left | right; now exists EmptyString].
  - right. now eexists.
Qed.

Lemma strip_idempotent (s : string) : strip p (strip p s) = strip p s.
Proof.
  unfold strip. pose proof (lstrip_head s) as Hh.
  destruct (lstrip p s) as [|c u]; [reflexivity|].
  destruct (rstrip_head c u) as [E|[kept E]]; rewrite E.
  - reflexivity.
  - cbn [lstrip]. rewrite Hh, <- E. apply rstrip_idempotent.
Qed.

Lemma lstrip_in_chars (s : string) (c : ascii) :
  in_chars s c = false -> in_chars (lstrip p s) c = false.
Proof.
  induction s as [|a s IH]; [reflexivity|]. cbn [lstrip in_chars]. intros H.
  destruct (p a); [|exact H]. apply orb_false_elim in H. now apply IH.
Qed.

Lemma rstrip_in_chars (s : string) (c : ascii) :
  in_chars s c = false -> in_chars (rstrip p s) c = false.
Proof.
  induction s as [|a s IH]; [reflexivity|]. cbn [rstrip in_chars]. intros H.
  apply orb_false_elim in H. destruct H as [Ha Hs]. specialize (IH Hs).
  destruct (rstrip p s) as [|d kept].
  - destruct (p a); [reflexivity|]. cbn. now rewrite Ha.
  - cbn [in_chars] in *. now rewrite Ha, IH.
Qed.

End Stripping.

(** X10: every tag the text reader takes from a cell line is a non-empty
    string without a comma that has no white space at either end:
    stripping it again changes nothing. *)
Theorem cell_tags_are_trimmed (cell_def tag : string) :
  In tag (ScratchpadNotebookFormat.cell_tags cell_def) ->
  tag <> EmptyString /\
  PyStr.strip PyStr.isspace tag = tag /\
  PyStr.in_chars tag "," = false.
Proof.
  unfold ScratchpadNotebookFormat.cell_tags.
  destruct (PyStr.contains cell_def "["); [|intros []].
  intros H. apply filter_In in H. destruct H as [Hin Hne].
  apply in_map_iff in Hin. destruct Hin as [piece [<- Hpiece]].
  split; [|split].
  - intros E. rewrite E in Hne. discriminate Hne.
  - apply strip_idempotent.
  - unfold PyStr.strip. apply rstrip_in_chars, lstrip_in_chars.
    exact (split_pieces_free _ _ _ Hpiece).
Qed.

Lemma cell_tags_are_trimmed_witness :
  In "beta" (ScratchpadNotebookFormat.cell_tags "code [alpha, beta,  ]") /\
  "beta" <> EmptyString /\
  PyStr.strip PyStr.isspace "beta" = "beta" /\
  PyStr.in_chars "beta" "," = false.
Proof.
  assert (H : In "beta" (ScratchpadNotebookFormat.cell_tags "code [alpha, beta,  ]"))
    by (right; left; reflexivity).
  split; [exact H|].
  exact (cell_tags_are_trimmed "code [alpha, beta,  ]" "beta" H).
Defined.

(** ** The text format: cells *)

Lemma for_each_succeeds {A B : Type} (f : A -> result B) (l : list A) :
  (forall a, In a l -> exists b, f a = Ok b) -> exists bs, for_each f l = Ok bs.
Proof.
  induction l as [|a l IH]; intros H; [now exists []|].
  destruct (H a (or_introl eq_refl)) as [b Hb].
  destruct IH as [bs Hbs]; [intros x Hx; apply H; now right|].
  exists (b :: bs). cbn [for_each]. now rewrite Hb, Hbs.
Qed.

(** Every cell of a notebook read from text has a string for its type and
    a list of strings for its attributes. *)
Lemma read_lines_text_cells (rt : Runtime) (lines : list string) (cell : NotebookCellData) :
  In cell (cells (ScratchpadNotebookFormat.read_lines rt lines)) -> text_cell cell.
Proof.
  intros Hin.
  apply (in_map (fun c => (cell_type c, attributes c))) in Hin.
  unfold ScratchpadNotebookFormat.read_lines in Hin. cbn [cells] in Hin.
  rewrite (read_lines_headers rt lines ScratchpadNotebookFormat.start) in Hin.
  cbn [ScratchpadNotebookFormat.r_cells ScratchpadNotebookFormat.start map app] in Hin.
  apply in_map_iff in Hin. destruct Hin as [line [E _]].
  injection E as E1 E2. unfold text_cell. rewrite <- E1, <- E2.
  unfold opened_cell. cbn [cell_type attributes]. now eexists _, _.
Qed.

Lemma join_items_of_strings (tags : list string) :
  for_each ScratchpadNotebookFormat.join_item (map VStr tags) = Ok tags.
Proof.
  induction tags as [|t tags IH]; [reflexivity|].
  cbn [map for_each ScratchpadNotebookFormat.join_item bind]. now rewrite IH.
Qed.

Lemma text_cell_writes (rt : Runtime) (cell : NotebookCellData) :
  text_cell cell ->
  (exists cell_data, SynapseNotebookFormat.write_cell cell = Ok cell_data) /\
  (exists text, ScratchpadNotebookFormat.write_cell rt cell = Ok text).
Proof.
  intros [ctype [tags [Ht Ha]]]. split.
  - unfold SynapseNotebookFormat.write_cell. rewrite Ha. cbn [Py.len bind]. now eexists.
  - unfold ScratchpadNotebookFormat.write_cell. rewrite Ha. cbn [Py.len bind].
    destruct (0 <? List.length (map VStr tags))%nat; cbn [bind Py.iter].
    + rewrite join_items_of_strings. cbn [bind]. now eexists.
    + now eexists.
Qed.

(** X11: a notebook read from a text can always be written: on its cells
    neither the cell loop of the document writer nor the text writer
    raises, because the reader gives every cell a string as its type and a
    list of strings as its attributes. *)
Theorem text_notebook_is_writable (rt : Runtime) (text : string) :
  (forall cell,
      In cell (cells (ScratchpadNotebookFormat.read_text rt text)) -> text_cell cell) /\
  (exists entries,
      for_each SynapseNotebookFormat.write_cell
               (cells (ScratchpadNotebookFormat.read_text rt text))
      = Ok entries) /\
  (exists out,
      ScratchpadNotebookFormat.write_text rt (ScratchpadNotebookFormat.read_text rt text)
      = Ok out).
Proof.
  unfold ScratchpadNotebookFormat.read_text.
  set (lines := PyStr.split newline text).
  pose proof (read_lines_text_cells rt lines) as Hcells.
  split; [exact Hcells|]. split.
  - apply for_each_succeeds. intros cell Hin.
    exact (proj1 (text_cell_writes rt cell (Hcells cell Hin))).
  - unfold ScratchpadNotebookFormat.write_text.
    destruct (for_each_succeeds (ScratchpadNotebookFormat.write_cell rt)
                (cells (ScratchpadNotebookFormat.read_lines rt lines))) as [texts Ht].
    + intros cell Hin. exact (proj2 (text_cell_writes rt cell (Hcells cell Hin))).
    + rewrite Ht. cbn [bind]. now eexists.
Qed.

Section CellBody.

Import ScratchpadNotebookFormat.

Variable rt : Runtime.

(** A line that opens no cell, read while the last cell is the current
    one: a property line leaves the cell alone, any other line is added to
    its contents. *)
Lemma read_line_into_last (st : reader) (earlier : list NotebookCellData)
  (cell : NotebookCellData) (line : string) :
  r_cells st = (earlier ++ [cell])%list ->
  current_cell st = Some (List.length earlier) ->
  is_cell_line line = false ->
  r_cells (read_line rt st line)
  = (earlier ++ [ {| cell_type := cell_type cell;
                     contents := contents cell
                                 ++ (if is_meta_line line then EmptyString
                                     else line ++ str1 newline)%string;
                     attributes := attributes cell |} ])%list /\
  current_cell (read_line rt st line) = Some (List.length earlier).
Proof.
  intros Hcells Hcur Hline. unfold is_cell_line in Hline. unfold is_meta_line, read_line.
  assert (Happ : r_cells (append_line st line)
                 = (earlier ++ [ {| cell_type := cell_type cell;
                                    contents := contents cell ++ line ++ str1 newline;
                                    attributes := attributes cell |} ])%list /\
                 current_cell (append_line st line) = Some (List.length earlier)).
  { unfold append_line. rewrite Hcur. cbn [r_cells current_cell]. rewrite Hcells.
    split; [exact (update_at_last _ earlier cell) | reflexivity]. }
  destruct (PyStr.startswith line "@"); cbn [andb] in *; [|exact Happ].
  rewrite Hline. destruct (String.eqb (directive_of line) "meta"); [|exact Happ].
  unfold read_meta_line. rewrite append_empty_r.
  destruct (String.eqb _ "name"); cbn [r_cells current_cell]; rewrite Hcells, Hcur;
    destruct cell; split; reflexivity.
Qed.

Lemma read_body_into_last (body : list string) :
  forall (st : reader) (earlier : list NotebookCellData) (cell : NotebookCellData),
    r_cells st = (earlier ++ [cell])%list ->
    current_cell st = Some (List.length earlier) ->
    forallb (fun line => negb (is_cell_line line)) body = true ->
    r_cells (fold_left (read_line rt) body st)
    = (earlier ++ [ {| cell_type := cell_type cell;
                       contents :=
                         contents cell
                         ++ String.concat EmptyString
                              (map (fun line => (line ++ str1 newline)%string)
                                   (filter (fun line => negb (is_meta_line line)) body));
                       attributes := attributes cell |} ])%list.
Proof.
  induction body as [|line body IH]; intros st earlier cell Hcells Hcur Hbody.
  - cbn. rewrite append_empty_r, Hcells. now destruct cell.
  - cbn [forallb] in Hbody. apply andb_true_iff in Hbody. destruct Hbody as [Hline Hbody].
    apply negb_true_iff in Hline.
    destruct (read_line_into_last st earlier cell line Hcells Hcur Hline) as [Hc1 Hc2].
    cbn [fold_left]. rewrite (IH _ _ _ Hc1 Hc2 Hbody). cbn [cell_type contents attributes].
    cbn [filter]. destruct (is_meta_line line); cbn [negb map].
    + now rewrite append_empty_r.
    + now rewrite concat_empty_cons, !append_assoc.
Qed.

End CellBody.

(** X12: the contents of a cell is made of the lines that follow its cell
    line, up to the next cell line: each of them that is not a property
    line, in order, followed by one newline; a property line in between
    adds nothing.  The cells read before are left as they are. *)
Theorem cell_contents_are_its_lines (rt : Runtime) (before body : list string)
  (header : string) :
  is_cell_line header = true ->
  forallb (fun line => negb (is_cell_line line)) body = true ->
  cells (ScratchpadNotebookFormat.read_lines rt (before ++ header :: body))
  = (cells (ScratchpadNotebookFormat.read_lines rt before)
     ++ [ {| cell_type := cell_type (opened_cell header);
             contents :=
               String.concat EmptyString
                 (map (fun line => (line ++ str1 newline)%string)
                      (filter (fun line => negb (is_meta_line line)) body));
             attributes := attributes (opened_cell header) |} ])%list.
Proof.
  intros Hheader Hbody. unfold ScratchpadNotebookFormat.read_lines. cbn [cells].
  rewrite fold_left_app. cbn [fold_left].
  set (st := fold_left (ScratchpadNotebookFormat.read_line rt) before
                       ScratchpadNotebookFormat.start).
  destruct (read_line_cell rt st header Hheader) as [Hcells Hcur].
  exact (read_body_into_last rt body _ _ _ Hcells Hcur Hbody).
Qed.

Lemma cell_contents_are_its_lines_witness :
  is_cell_line "@cell code [t]" = true /\
  forallb (fun line => negb (is_cell_line line)) ["x"; "@meta nbformat 4"; "@dec"] = true /\
  cells (ScratchpadNotebookFormat.read_lines Sample.rt
           ([] ++ "@cell code [t]" :: ["x"; "@meta nbformat 4"; "@dec"]))
  = (cells (ScratchpadNotebookFormat.read_lines Sample.rt [])
     ++ [ {| cell_type := cell_type (opened_cell "@cell code [t]");
             contents :=
               String.concat EmptyString
                 (map (fun line => (line ++ str1 newline)%string)
                      (filter (fun line => negb (is_meta_line line))
                              ["x"; "@meta nbformat 4"; "@dec"]));
             attributes := attributes (opened_cell "@cell code [t]") |} ])%list.
Proof.
  split; [reflexivity|]. split; [reflexivity|].
  apply (cell_contents_are_its_lines Sample.rt [] ["x"; "@meta nbformat 4"; "@dec"]
           "@cell code [t]"); reflexivity.
Defined.

(** ** Which exceptions, exactly *)

Section RaisesOnly.

Variable allowed : exn -> Prop.

Lemma raises_only_ok {A : Type} (a : A) : raises_only allowed (Ok a).
Proof. intros e H. discriminate H. Qed.

Lemma raises_only_raise {A : Type} (e : exn) :
  allowed e -> raises_only allowed (@Raise A e).
Proof. intros He e' H. now injection H as <-. Qed.

Lemma raises_only_bind {A B : Type} (r : result A) (k : A -> result B) :
  raises_only allowed r ->
  (forall a, r = Ok a -> raises_only allowed (k a)) ->
  raises_only allowed (bind r k).
Proof.
  intros Hr Hk e H. destruct r as [a|e']; cbn [bind] in H.
  - exact (Hk a eq_refl e H).
  - apply (Hr e). now injection H as <-.
Qed.

Lemma raises_only_for_each {A B : Type} (f : A -> result B) (l : list A) :
  (forall a, In a l -> raises_only allowed (f a)) ->
  raises_only allowed (for_each f l).
Proof.
  induction l as [|a l IH]; intros Hf; cbn [for_each].
  - apply raises_only_ok.
  - apply raises_only_bind; [apply Hf; now left|]. intros b _.
    apply raises_only_bind; [apply IH; intros x Hx; apply Hf; now right|].
    intros bs _. apply raises_only_ok.
Qed.

End RaisesOnly.


(** X13: when the document reader fails on a loaded document, the
    exception is [AttributeError] (a value that should be a map is not, or
    a source line is not a string), [TypeError] (the cells value or a
    source value cannot be iterated) or [KeyError] for the key source (a
    cell without source); it is never another one. *)
Theorem read_data_raises (file_data : pyval) (e : exn) :
  SynapseNotebookFormat.read_data file_data = Raise e ->
  e = AttributeError \/ e = TypeError \/ e = KeyError "source".
Proof.
  revert e.
  change (raises_only (fun e => e = AttributeError \/ e = TypeError \/ e = KeyError "source")
                      (SynapseNotebookFormat.read_data file_data)).
  assert (Hget : forall obj key default,
             raises_only (fun e => e = AttributeError \/ e = TypeError \/ e = KeyError "source")
                         (Py.get_default obj key default)).
  { intros obj key default. destruct obj; cbn [Py.get_default];
      first [apply raises_only_ok | apply raises_only_raise; now left]. }
  assert (Hiter : forall obj,
             raises_only (fun e => e = AttributeError \/ e = TypeError \/ e = KeyError "source")
                         (Py.iter obj)).
  { intros obj. destruct obj; cbn [Py.iter];
      first [apply raises_only_ok | apply raises_only_raise; right; now left]. }
  unfold SynapseNotebookFormat.read_data, Py.get.
  apply raises_only_bind; [apply Hget | intros nm _].
  apply raises_only_bind; [apply Hget | intros properties_obj _].
  apply raises_only_bind; [apply Hget | intros cells_obj _].
  apply raises_only_bind; [apply Hiter | intros entries _].
  apply raises_only_bind; [|intros cs _; apply raises_only_ok].
  apply raises_only_for_each. intros cell_data _.
  unfold SynapseNotebookFormat.read_cell, Py.get.
  apply raises_only_bind; [apply Hget | intros metadata _].
  apply raises_only_bind; [apply Hget | intros tags _].
  apply raises_only_bind; [apply Hget | intros ctype Hctype].
  apply raises_only_bind.
  { destruct cell_data as [| | | | | |d]; try discriminate Hctype.
    cbn [Py.getitem]. destruct (Dict.get d "source");
      [apply raises_only_ok | apply raises_only_raise; right; now right]. }
  intros source _.
  apply raises_only_bind; [|intros content _; apply raises_only_ok].
  unfold SynapseNotebookFormat.cell_content.
  apply raises_only_bind; [apply Hiter | intros lines _].
  apply raises_only_bind; [|intros pieces _; apply raises_only_ok].
  apply raises_only_for_each. intros line _.
  destruct line; cbn [SynapseNotebookFormat.source_line];
    first [apply raises_only_ok | apply raises_only_raise; now left].
Qed.

Lemma read_data_raises_witness :
  SynapseNotebookFormat.read_data (VDict [("properties", VDict [])]) = Raise TypeError /\
  (TypeError = AttributeError \/ TypeError = TypeError \/ TypeError = KeyError "source").
Proof.
  split; [reflexivity|].
  exact (read_data_raises (VDict [("properties", VDict [])]) TypeError eq_refl).
Defined.



(** ** Reading text *)

Lemma replace_single_removes (c : ascii) (new s : string) :
  PyStr.in_chars new c = false ->
  PyStr.in_chars (PyStr.replace s (str1 c) new) c = false.
Proof.
  intros Hnew. induction s as [|a s IH]; [reflexivity|].
  rewrite replace_single_cons. destruct (Ascii.eqb c a) eqn:Ha.
  - now rewrite in_chars_append, Hnew, IH.
  - cbn [PyStr.in_chars]. now rewrite Ha, IH.
Qed.

(** X15: the text that the text reader parses holds no carriage return,
    whatever the file holds, and a file text without carriage return is
    parsed as it is. *)
Theorem universal_newlines_no_cr (text : string) :
  PyStr.in_chars (universal_newlines text) cr = false /\
  (PyStr.in_chars text cr = false -> universal_newlines text = text).
Proof.
  unfold universal_newlines. split.
  - now apply replace_single_removes.
  - intros H. rewrite (replace_absent cr (str1 newline) _ text H).
    exact (replace_absent cr EmptyString _ text H).
Qed.

(** ** The orchestrator and the command line *)






(** ** Finding and slicing *)

Section FindSlice.

Import PyStr.










End FindSlice.

(** ** Property lines *)


Section MetadataRoundTrip.

Import ScratchpadNotebookFormat.

Variable rt : Runtime.














End MetadataRoundTrip.



(** ** Writing a document and reading it again *)

Lemma dict_set_same (d : Dict.t) (key : string) (v : pyval) :
  Dict.get d key = Some v -> Dict.set d key v = d.
Proof.
  induction d as [|[k w] d IH]; cbn [Dict.get Dict.set]; [discriminate|].
  destruct (String.eqb k key); intros H.
  - now injection H as ->.
  - now rewrite (IH H).
Qed.

(** Assigning to a path the value that is there already changes nothing. *)
Lemma set_walk_same (path_parts : list string) :
  forall obj value,
    path_parts <> [] ->
    get_walk obj path_parts = Some value ->
    set_walk obj path_parts value = Ok obj.
Proof.
  induction path_parts as [|part rest IH]; intros obj value Hne Hget; [now elim Hne|].
  cbn [get_walk] in Hget.
  destruct obj as [| | | | | |d]; try discriminate Hget.
  destruct (Dict.get d part) as [child|] eqn:Hchild; [|discriminate Hget].
  destruct rest as [|next rest].
  - cbn [get_walk] in Hget. injection Hget as ->.
    cbn [set_walk Py.setitem]. now rewrite (dict_set_same d part value Hchild).
  - rewrite set_walk_step. cbn [bind Py.getitem]. rewrite Hchild. cbn [bind].
    rewrite (IH child value ltac:(discriminate) Hget). cbn [bind Py.setitem].
    now rewrite (dict_set_same d part child Hchild).
Qed.

Lemma split_dot_nonempty (path : string) : PyStr.split "." path <> [].
Proof. apply split_nonempty. Qed.

(** The paths of two different recognized keys lie apart. *)
Lemma meta_paths_apart (key key' path path' : string) :
  SynapseNotebookFormat.meta_path key SynapseNotebookFormat.meta_properties = Some path ->
  SynapseNotebookFormat.meta_path key' SynapseNotebookFormat.meta_properties = Some path' ->
  key <> key' ->
  apart (PyStr.split "." path') (PyStr.split "." path) = true /\
  apart (PyStr.split "." path) ["cells"] = true.
Proof.
  cbn [SynapseNotebookFormat.meta_path SynapseNotebookFormat.meta_properties].
  intros H H' Hne.
  repeat match type of H with
         | context [String.eqb ?a key] =>
             let E := fresh "E" in
             destruct (String.eqb a key) eqn:E;
             [apply String.eqb_eq in E | clear E]
         end; try discriminate H; injection H as <-; subst key;
    repeat match type of H' with
           | context [String.eqb ?a key'] =>
               let E := fresh "E" in
               destruct (String.eqb a key') eqn:E;
               [apply String.eqb_eq in E | clear E]
           end; try discriminate H'; injection H' as <-; subst key';
    first [now elim Hne | split; reflexivity].
Qed.

(** The frame of the property loop, by the items it walks. *)
Lemma write_properties_frame_items (items : list (string * pyval)) :
  forall props props' p,
    SynapseNotebookFormat.write_properties props items = Ok props' ->
    (forall item prop_path,
        In item items ->
        SynapseNotebookFormat.meta_path (fst item) SynapseNotebookFormat.meta_properties
        = Some prop_path ->
        apart p (PyStr.split "." prop_path) = true) ->
    get_walk props' p = get_walk props p.
Proof.
  induction items as [|[prop_name prop_value] items IH]; intros props props' p Hw Hp;
    cbn [SynapseNotebookFormat.write_properties] in Hw.
  - now injection Hw as <-.
  - assert (Hrest : forall item prop_path,
               In item items ->
               SynapseNotebookFormat.meta_path (fst item) SynapseNotebookFormat.meta_properties
               = Some prop_path ->
               apart p (PyStr.split "." prop_path) = true)
      by (intros item prop_path Hin; apply Hp; now right).
    destruct (SynapseNotebookFormat.meta_path prop_name SynapseNotebookFormat.meta_properties)
      as [prop_path|] eqn:Hpath; [|exact (IH _ _ _ Hw Hrest)].
    destruct (set_property_value props prop_path prop_value) as [props1|e] eqn:Hset;
      [|discriminate Hw].
    cbn [bind] in Hw. rewrite (IH _ _ _ Hw Hrest).
    exact (set_walk_frame _ _ _ _ _ Hset (Hp (prop_name, prop_value) _ (or_introl eq_refl) Hpath)).
Qed.

(** After the property loop, each recognized item with a key of its own is
    where its path says. *)
Lemma write_properties_get (items : list (string * pyval)) :
  forall props props' key value path,
    SynapseNotebookFormat.write_properties props items = Ok props' ->
    NoDup (Dict.keys items) ->
    In (key, value) items ->
    SynapseNotebookFormat.meta_path key SynapseNotebookFormat.meta_properties = Some path ->
    get_walk props' (PyStr.split "." path) = Some value.
Proof.
  induction items as [|[k0 v0] items IH]; intros props props' key value path Hw Hnd Hin Hpath;
    [now elim Hin|].
  cbn [Dict.keys map fst] in Hnd. inversion Hnd as [|? ? Hk0 Hrest]; subst.
  cbn [SynapseNotebookFormat.write_properties] in Hw.
  destruct Hin as [E|Hin].
  - injection E as -> ->. rewrite Hpath in Hw.
    destruct (set_property_value props path value) as [props1|e] eqn:Hset;
      [|discriminate Hw].
    cbn [bind] in Hw.
    rewrite (write_properties_frame_items items _ _ _ Hw).
    + exact (set_walk_get _ _ _ _ Hset).
    + intros [k' v'] path' Hin' Hpath'. cbn [fst] in Hpath'.
      apply (meta_paths_apart k' key path' path Hpath' Hpath).
      intros ->. apply Hk0. change (In (fst (key, v')) (map fst items)).
      now apply in_map.
  - destruct (SynapseNotebookFormat.meta_path k0 SynapseNotebookFormat.meta_properties)
      as [path0|]; [|exact (IH _ _ _ _ _ Hw Hrest Hin Hpath)].
    destruct (set_property_value props path0 v0) as [props1|e]; [|discriminate Hw].
    cbn [bind] in Hw. exact (IH _ _ _ _ _ Hw Hrest Hin Hpath).
Qed.

(** What a successful [write_file] has built. *)
Lemma write_data_inv (file_data file_data' : pyval) (nb_data : NotebookData) :
  SynapseNotebookFormat.write_data file_data nb_data = Ok file_data' ->
  exists d d1 cs,
    file_data = VDict d /\
    SynapseNotebookFormat.write_properties
      (match Dict.get d "properties" with Some v => v | None => VDict [] end)
      (properties nb_data)
    = Ok (VDict d1) /\
    for_each SynapseNotebookFormat.write_cell (cells nb_data) = Ok cs /\
    file_data'
    = VDict (Dict.set (Dict.set d "name" (name nb_data)) "properties"
                      (VDict (Dict.set d1 "cells" (VList cs)))).
Proof.
  unfold SynapseNotebookFormat.write_data, set_property_value.
  change (PyStr.split "." "name") with ["name"].
  change (PyStr.split "." "cells") with ["cells"].
  change (PyStr.split "." "properties") with ["properties"].
  cbn [set_walk]. intros Hw.
  destruct file_data as [| | | | | |d]; try discriminate Hw.
  cbn [Py.setitem bind Py.get_default] in Hw.
  rewrite (dict_get_set_other d "name" "properties") in Hw by reflexivity.
  destruct (SynapseNotebookFormat.write_properties _ (properties nb_data))
    as [props1|e] eqn:Hprops; [|discriminate Hw].
  cbn [bind] in Hw.
  destruct (for_each SynapseNotebookFormat.write_cell (cells nb_data)) as [cs|e] eqn:Hcs;
    [|discriminate Hw].
  cbn [bind] in Hw.
  destruct props1 as [| | | | | |d1]; try discriminate Hw.
  cbn [Py.setitem bind] in Hw. injection Hw as <-.
  now exists d, d1, cs.
Qed.

Lemma read_written_cells (cell_list : list NotebookCellData) :
  forall entries,
    for_each SynapseNotebookFormat.write_cell cell_list = Ok entries ->
    for_each SynapseNotebookFormat.read_cell entries
    = Ok (map (fun cell =>
                 {| cell_type := cell_type cell;
                    contents :=
                      PyStr.rstrip
                        (PyStr.in_chars
                           (String space (String newline (String tab (str1 cr)))))
                        (contents cell) ++ str1 newline;
                    attributes := VList [] |})
              cell_list).
Proof.
  induction cell_list as [|cell rest IH]; intros entries H; cbn [for_each] in H.
  - now injection H as <-.
  - destruct (SynapseNotebookFormat.write_cell cell) as [cell_data|e] eqn:Hcell;
      [|discriminate H].
    cbn [bind] in H.
    destruct (for_each SynapseNotebookFormat.write_cell rest) as [more|e];
      [|discriminate H].
    cbn [bind] in H. injection H as <-.
    cbn [for_each map]. rewrite (written_then_read_cell cell cell_data Hcell).
    cbn [bind]. now rewrite (IH more eq_refl).
Qed.

Lemma get_walk_beside_cells (d : Dict.t) (v : pyval) (p : list string) :
  apart p ["cells"] = true ->
  get_walk (VDict (Dict.set d "cells" v)) p = get_walk (VDict d) p.
Proof.
  intros Hp. destruct p as [|key p]; [discriminate Hp|]. cbn [get_walk].
  now rewrite (dict_get_set_other _ _ _ _ (apart_single _ _ _ Hp)).
Qed.

Lemma meta_path_beside_cells (key path : string) :
  SynapseNotebookFormat.meta_path key SynapseNotebookFormat.meta_properties = Some path ->
  apart (PyStr.split "." path) ["cells"] = true.
Proof.
  cbn [SynapseNotebookFormat.meta_path SynapseNotebookFormat.meta_properties].
  repeat match goal with
         | |- context [String.eqb ?a key] => destruct (String.eqb a key)
         end;
    intros H; try discriminate H; now injection H as <-.
Qed.

(** In the properties the reader builds, a recognized key has what
    [get_property_by_path] finds at its path. *)
Lemma read_properties_get (properties_obj : pyval) (key path : string) :
  SynapseNotebookFormat.meta_path key SynapseNotebookFormat.meta_properties = Some path ->
  Dict.get
    (fold_left (fun acc '(prop_name, prop_path) =>
                  Dict.set acc prop_name (get_property_by_path properties_obj prop_path))
               SynapseNotebookFormat.meta_properties [])
    key
  = Some (get_property_by_path properties_obj path).
Proof.
  change (fold_left _ SynapseNotebookFormat.meta_properties [])
    with [ ("folder", get_property_by_path properties_obj "folder.name");
           ("nbformat", get_property_by_path properties_obj "nbformat");
           ("nbformat_minor", get_property_by_path properties_obj "nbformat_minor");
           ("language", get_property_by_path properties_obj "metadata.language_info.name") ].
  cbn [SynapseNotebookFormat.meta_path SynapseNotebookFormat.meta_properties Dict.get].
  repeat match goal with
         | |- context [String.eqb ?a key] => destruct (String.eqb a key)
         end;
    intros H; try discriminate H; now injection H as <-.
Qed.

(** X19: after a successful [write_file], the document reader finds, for
    every recognized key that the notebook sets (the keys of a notebook
    being distinct), the value the notebook gave it when that value is an
    int, a float or a string, and None otherwise. *)
Theorem written_properties_are_read (file_data file_data' : pyval)
  (nb_data : NotebookData) :
  SynapseNotebookFormat.write_data file_data nb_data = Ok file_data' ->
  NoDup (Dict.keys (properties nb_data)) ->
  exists nb,
    SynapseNotebookFormat.read_data file_data' = Ok nb /\
    forall key value path,
      In (key, value) (properties nb_data) ->
      SynapseNotebookFormat.meta_path key SynapseNotebookFormat.meta_properties
      = Some path ->
      Dict.get (properties nb) key = Some (if is_scalar value then value else VNone).
Proof.
  intros Hw Hnd.
  destruct (write_data_inv _ _ _ Hw) as [d [d1 [cs [-> [Hprops [Hcs ->]]]]]].
  unfold SynapseNotebookFormat.read_data, Py.get. cbn [Py.get_default bind].
  rewrite (dict_get_set_other _ "properties" "name") by reflexivity.
  rewrite !dict_get_set_same. cbn [Py.get_default bind].
  rewrite dict_get_set_same. cbn [Py.iter bind].
  rewrite (read_written_cells _ _ Hcs). cbn [bind].
  eexists. split; [reflexivity|]. cbn [properties].
  intros key value path Hin Hpath.
  rewrite (read_properties_get _ key path Hpath). f_equal.
  unfold get_property_by_path.
  rewrite (get_walk_beside_cells _ _ _ (meta_path_beside_cells key path Hpath)).
  now rewrite (write_properties_get _ _ _ key value path Hprops Hnd Hin Hpath).
Qed.

Lemma written_properties_are_read_witness :
  fst (SynapseNotebookFormat.write_file Sample.rt Sample.disk "/nb.json" Sample.notebook)
  = Ok tt /\
  NoDup (Dict.keys (properties Sample.notebook)) /\
  exists file_data' nb,
    SynapseNotebookFormat.write_data Sample.document Sample.notebook = Ok file_data' /\
    SynapseNotebookFormat.read_data file_data' = Ok nb /\
    forall key value path,
      In (key, value) (properties Sample.notebook) ->
      SynapseNotebookFormat.meta_path key SynapseNotebookFormat.meta_properties
      = Some path ->
      Dict.get (properties nb) key = Some (if is_scalar value then value else VNone).
Proof.
  split; [reflexivity|].
  assert (Hnd : NoDup (Dict.keys (properties Sample.notebook)))
    by (repeat constructor; intros []).
  split; [exact Hnd|].
  destruct (SynapseNotebookFormat.write_data Sample.document Sample.notebook)
    as [file_data'|e] eqn:Hw; [|discriminate Hw].
  exists file_data'.
  destruct (written_properties_are_read Sample.document file_data' Sample.notebook Hw Hnd)
    as [nb [Hr Hp]].
  exists nb. split; [reflexivity|]. split; [exact Hr | exact Hp].
Defined.

Lemma write_properties_same (items : list (string * pyval)) (props : pyval) :
  (forall key value path,
      In (key, value) items ->
      SynapseNotebookFormat.meta_path key SynapseNotebookFormat.meta_properties = Some path ->
      get_walk props (PyStr.split "." path) = Some value) ->
  SynapseNotebookFormat.write_properties props items = Ok props.
Proof.
  induction items as [|[k v] items IH]; intros H; [reflexivity|].
  cbn [SynapseNotebookFormat.write_properties].
  assert (Hrest : SynapseNotebookFormat.write_properties props items = Ok props)
    by (apply IH; intros key value path Hin; apply H; now right).
  destruct (SynapseNotebookFormat.meta_path k SynapseNotebookFormat.meta_properties)
    as [path|] eqn:Hpath; [|exact Hrest].
  unfold set_property_value.
  rewrite (set_walk_same _ _ _ (split_dot_nonempty path) (H k v path (or_introl eq_refl) Hpath)).
  exact Hrest.
Qed.

(** X20: writing the same notebook a second time into the document that
    the first write has built gives that document again: [write_file] is
    idempotent on the loaded document (the keys of the notebook's
    properties being distinct). *)
Theorem write_data_idempotent (file_data file_data' : pyval) (nb_data : NotebookData) :
  SynapseNotebookFormat.write_data file_data nb_data = Ok file_data' ->
  NoDup (Dict.keys (properties nb_data)) ->
  SynapseNotebookFormat.write_data file_data' nb_data = Ok file_data'.
Proof.
  intros Hw Hnd.
  destruct (write_data_inv _ _ _ Hw) as [d [d1 [cs [-> [Hprops [Hcs ->]]]]]].
  unfold SynapseNotebookFormat.write_data, set_property_value.
  change (PyStr.split "." "name") with ["name"].
  change (PyStr.split "." "cells") with ["cells"].
  change (PyStr.split "." "properties") with ["properties"].
  cbn [set_walk Py.setitem bind Py.get_default].
  rewrite (dict_set_same _ "name" (name nb_data))
    by (rewrite (dict_get_set_other _ "properties" "name") by reflexivity;
        apply dict_get_set_same).
  rewrite dict_get_set_same.
  rewrite write_properties_same.
  - cbn [bind]. rewrite Hcs. cbn [bind Py.setitem].
    rewrite (dict_set_same (Dict.set d1 "cells" (VList cs)) "cells" (VList cs))
      by apply dict_get_set_same.
    now rewrite (dict_set_same (Dict.set (Dict.set d "name" (name nb_data)) "properties" _)
                   "properties" _)
      by apply dict_get_set_same.
  - intros key value path Hin Hpath.
    rewrite (get_walk_beside_cells _ _ _ (meta_path_beside_cells key path Hpath)).
    exact (write_properties_get _ _ _ key value path Hprops Hnd Hin Hpath).
Qed.

Lemma write_data_idempotent_witness :
  NoDup (Dict.keys (properties Sample.notebook)) /\
  exists file_data',
    SynapseNotebookFormat.write_data Sample.document Sample.notebook = Ok file_data' /\
    SynapseNotebookFormat.write_data file_data' Sample.notebook = Ok file_data'.
Proof.
  assert (Hnd : NoDup (Dict.keys (properties Sample.notebook)))
    by (repeat constructor; intros []).
  split; [exact Hnd|].
  destruct (SynapseNotebookFormat.write_data Sample.document Sample.notebook)
    as [file_data'|e] eqn:Hw; [|discriminate Hw].
  exists file_data'. split; [reflexivity|].
  exact (write_data_idempotent Sample.document file_data' Sample.notebook Hw Hnd).
Defined.

(** ** Cell lines *)

Section PlainWords.

Import PyStr.











End PlainWords.

Section CellLines.

Import PyStr.






End CellLines.

Section CellRoundTrip.

Import PyStr.




End CellRoundTrip.

Section NotebookRoundTrip.

Import ScratchpadNotebookFormat.

Variable rt : Runtime.







End NotebookRoundTrip.






Lemma rstrip_newlines (s : string) (k : nat) :
  PyStr.rstrip (PyStr.in_chars (String space (String newline (String tab (str1 cr)))))
               (s ++ newlines k)
  = PyStr.rstrip (PyStr.in_chars (String space (String newline (String tab (str1 cr))))) s.
Proof.
  induction k as [|k IH]; [now rewrite append_empty_r|].
  replace (s ++ newlines (S k)) with ((s ++ newlines k) ++ str1 newline).
  - now rewrite rstrip_append_stripped.
  - rewrite append_assoc. f_equal. clear. induction k as [|k IH]; [reflexivity|].
    cbn [newlines append]. now rewrite IH.
Qed.

Lemma write_cell_ignores_newlines (cell : NotebookCellData) (k : nat) :
  SynapseNotebookFormat.write_cell (add_newlines k cell)
  = SynapseNotebookFormat.write_cell cell.
Proof.
  unfold SynapseNotebookFormat.write_cell, add_newlines.
  cbn [cell_type contents attributes]. now rewrite rstrip_newlines.
Qed.

(** X22: the newlines that a text round trip adds to the contents of the
    cells make no difference to the document writer: writing the notebook
    with the cells as the text reader returns them after a round trip
    gives the same result, document or exception, as writing the notebook
    itself; more generally, newlines added at the end of a cell's contents
    do not change the entry the writer builds for it. *)
Theorem document_writer_ignores_round_trip (file_data nm : pyval) (props : Dict.t)
  (cell_list : list NotebookCellData) :
  SynapseNotebookFormat.write_data file_data
    {| name := nm; properties := props; cells := after_text_round_trip cell_list |}
  = SynapseNotebookFormat.write_data file_data
      {| name := nm; properties := props; cells := cell_list |} /\
  (forall cell k,
      SynapseNotebookFormat.write_cell (add_newlines k cell)
      = SynapseNotebookFormat.write_cell cell).
Proof.
  split; [|exact write_cell_ignores_newlines].
  assert (Hcells : for_each SynapseNotebookFormat.write_cell (after_text_round_trip cell_list)
                   = for_each SynapseNotebookFormat.write_cell cell_list).
  { induction cell_list as [|cell rest IH]; [reflexivity|].
    destruct rest as [|next rest].
    - cbn [after_text_round_trip for_each]. now rewrite write_cell_ignores_newlines.
    - change (after_text_round_trip (cell :: next :: rest))
        with (add_newlines 1 cell :: after_text_round_trip (next :: rest)).
      cbn [for_each] in *. now rewrite write_cell_ignores_newlines, IH. }
  unfold SynapseNotebookFormat.write_data. cbn [name properties cells].
  now rewrite Hcells.
Qed.
